(** * Weather-station microservice: a shallow embedding of [app/models.py]
    and [app/routers/webhook.py], and the properties of its operations.

    Layout:
    - Python values used by the handlers (binary64 floats, [round], [sum],
      truth tests, timestamps, exceptions);
    - [app/models.py]: the table row and the request models;
    - the persistence layer the handlers talk to (a SQLAlchemy session over
      one PostgreSQL table), as a unit-of-work state machine;
    - [app/routers/webhook.py]: one definition per handler;
    - the vocabulary of the statements and the sample data;
    - lemmas and theorems, one section per operation. *)

From Stdlib Require Import ZArith List String Ascii Bool Lia.
From Stdlib Require Import Permutation Sorted DecimalString.
From Stdlib Require Import Floats.PrimFloat Floats.SpecFloat Floats.FloatOps.
Import ListNotations.

#[local] Set Warnings "-inexact-float".
#[local] Open Scope string_scope.
#[local] Open Scope Z_scope.

(* ================================================================== *)
(** * Python values *)
(* ================================================================== *)

(** A timezone-aware [datetime] is the instant it denotes, counted in
    microseconds since the epoch. *)
Definition datetime := Z.

(** [timedelta(hours=h)] in microseconds. *)
Definition timedelta_hours (h : Z) : Z := h * 3600000000.

(** Exceptions that can cross a handler. *)
Inductive Exn : Type :=
| AttributeError (msg : string)
| TypeError (msg : string)
| DataError (msg : string)
| IndexError (msg : string)
| ValidationError (missing : list string)
| RequestValidationError (param : string)
| HTTPException (status_code : Z) (detail : string).

(** [str(e)] *)
Definition str (e : Exn) : string :=
  match e with
  | AttributeError msg => msg
  | TypeError msg => msg
  | DataError msg => msg
  | IndexError msg => msg
  | ValidationError missing => "Field required: " ++ String.concat ", " missing
  | RequestValidationError param => "Invalid query parameter: " ++ param
  | HTTPException _ detail => detail
  end.

Inductive result (A : Type) : Type :=
| Ok (a : A)
| Raise (e : Exn).
Arguments Ok {A} a.
Arguments Raise {A} e.

(** ** Floats *)

(** Truth value of a Python float: false exactly for [0.0] and [-0.0]
    ([nan] is true). *)
Definition float_bool (x : float) : bool := negb (PrimFloat.eqb x 0%float).

(** Truth value of an [Optional[float]]: [None] is false. *)
Definition optional_float_bool (x : option float) : bool :=
  match x with
  | None => false
  | Some v => float_bool v
  end.

(** Truth value of an [Optional[str]]: [None] and [""] are false. *)
Definition optional_str_bool (x : option string) : bool :=
  match x with
  | None => false
  | Some s => negb (String.eqb s "")
  end.

(** The integer nearest to [n / d] ([d > 0]), ties to the even one. *)
Definition round_half_even (n d : Z) : Z :=
  let q := n / d in
  let r := n mod d in
  match 2 * r ?= d with
  | Lt => q
  | Gt => q + 1
  | Eq => if Z.even q then q else q + 1
  end.

(** The binary64 value nearest to [n / d] ([n >= 0], [d > 0]): a quotient
    with 64 extra bits and a sticky bit, rounded once. *)
Definition nearest_float (n d : Z) : float :=
  let num := n * 2 ^ 64 in
  let q := num / d in
  let sticky := if (num mod d) =? 0 then 0 else 1 in
  SF2Prim (binary_normalize prec emax (2 * q + sticky) (-65) false).

(** [round(x, 2)] on a float: the exact value of [x] rounded half-even to
    two decimals, then the nearest float to that decimal; [nan], the
    infinities and zeros round to themselves. *)
Definition round2 (x : float) : float :=
  match Prim2SF x with
  | S754_finite s m e =>
      if 0 <=? e then x
      else
        let r := nearest_float (round_half_even (Zpos m * 100) (2 ^ (- e))) 100 in
        if s then (- r)%float else r
  | _ => x
  end.

(** [sum(xs)] over floats; the integer start value [0] adds like [0.0]. *)
Definition py_sum (xs : list float) : float :=
  fold_left PrimFloat.add xs 0%float.

(** [len(xs)] as the float Python divides by. *)
Definition float_of_len {A : Type} (xs : list A) : float :=
  SF2Prim (binary_normalize prec emax (Z.of_nat (List.length xs)) 0 false).

(* ================================================================== *)
(** * [app/models.py] *)
(* ================================================================== *)

(** A dynamically typed attribute value, as [getattr] returns it. *)
Inductive pyval : Type :=
| PyNone
| PyFloat (x : float)
| PyStr (s : string)
| PyInt (n : Z)
| PyDatetime (t : datetime).

Definition pyval_of_float (x : option float) : pyval :=
  match x with Some v => PyFloat v | None => PyNone end.

Definition pyval_of_str (x : option string) : pyval :=
  match x with Some v => PyStr v | None => PyNone end.

(** ** [class WeatherStationData(Base)]: one row of
    [weather_station_data]. *)
Module WeatherStationData.

Record t : Type := mk {
  id : Z;
  station_time : datetime;
  source : string;
  temperature : option float;
  precipitation : option float;
  real_precipitation : option float;
  presure : option float;
  wind_speed : option float;
  wind_direction : option float;
  humidity : option float;
  radiation : option float;
  eto : option float;
  compass_rose : option string;
  real_eto : option float;
  radiation_uv : option float;
  processed : Z;
  created_at : datetime;
  updated_at : option datetime
}.

(** The mapped attributes of the class: the keyword arguments its
    constructor accepts. *)
Definition columns : list string :=
  [ "id"; "station_time"; "source"; "temperature"; "precipitation";
    "real_precipitation"; "presure"; "wind_speed"; "wind_direction";
    "humidity"; "radiation"; "eto"; "compass_rose"; "real_eto";
    "radiation_uv"; "processed"; "created_at"; "updated_at" ].

(** The declarative constructor. The declared columns arrive typed; every
    other keyword argument arrives in [extra], and the first one that is
    not a mapped attribute raises [TypeError]. A new object has no [id]
    and no [created_at] yet and [processed] unset: the placeholders
    below are overwritten by the INSERT (sequence value, [default=0],
    [server_default=func.now()]). *)
Definition init
    (station_time : datetime) (source : string)
    (temperature precipitation real_precipitation presure wind_speed
       wind_direction humidity radiation eto : option float)
    (compass_rose : option string)
    (real_eto radiation_uv : option float)
    (extra : list (string * pyval)) : result t :=
  match filter (fun kv => negb (existsb (String.eqb (fst kv)) columns)) extra with
  | (k, _) :: _ =>
      Raise (TypeError ("'" ++ k ++ "' is an invalid keyword argument for WeatherStationData"))
  | [] =>
      Ok (mk 0 station_time source temperature precipitation
            real_precipitation presure wind_speed wind_direction humidity
            radiation eto compass_rose real_eto radiation_uv 0 0 None)
  end.

Definition with_id_created (i : Z) (now : datetime) (r : t) : t :=
  mk i (station_time r) (source r) (temperature r) (precipitation r)
     (real_precipitation r) (presure r) (wind_speed r) (wind_direction r)
     (humidity r) (radiation r) (eto r) (compass_rose r) (real_eto r)
     (radiation_uv r) 0 now None.

Definition with_processed (p : Z) (r : t) : t :=
  mk (id r) (station_time r) (source r) (temperature r) (precipitation r)
     (real_precipitation r) (presure r) (wind_speed r) (wind_direction r)
     (humidity r) (radiation r) (eto r) (compass_rose r) (real_eto r)
     (radiation_uv r) p (created_at r) (updated_at r).

Definition with_updated_at (u : datetime) (r : t) : t :=
  mk (id r) (station_time r) (source r) (temperature r) (precipitation r)
     (real_precipitation r) (presure r) (wind_speed r) (wind_direction r)
     (humidity r) (radiation r) (eto r) (compass_rose r) (real_eto r)
     (radiation_uv r) (processed r) (created_at r) (Some u).

End WeatherStationData.

(** ** [class DataReceived(BaseModel)]: the validated request body. *)
Module DataReceived.

Record t : Type := mk {
  stationTime : datetime;
  temperature : option float;
  precipitation : option float;
  realPrecipitation : option float;
  presure : option float;
  windSpeed : option float;
  windDirection : option float;
  humidity : option float;
  radiation : option float;
  eto : option float;
  compassRose : option string;
  realETO : option float;
  radiationUV : option float;
  source : string
}.

(** Attribute access by name. A model instance carries its declared
    fields only (undeclared keys of the body are dropped by validation),
    so any other name raises [AttributeError]. *)
Definition getattr (d : t) (name : string) : result pyval :=
  if String.eqb name "stationTime" then Ok (PyDatetime (stationTime d))
  else if String.eqb name "temperature" then Ok (pyval_of_float (temperature d))
  else if String.eqb name "precipitation" then Ok (pyval_of_float (precipitation d))
  else if String.eqb name "realPrecipitation" then Ok (pyval_of_float (realPrecipitation d))
  else if String.eqb name "presure" then Ok (pyval_of_float (presure d))
  else if String.eqb name "windSpeed" then Ok (pyval_of_float (windSpeed d))
  else if String.eqb name "windDirection" then Ok (pyval_of_float (windDirection d))
  else if String.eqb name "humidity" then Ok (pyval_of_float (humidity d))
  else if String.eqb name "radiation" then Ok (pyval_of_float (radiation d))
  else if String.eqb name "eto" then Ok (pyval_of_float (eto d))
  else if String.eqb name "compassRose" then Ok (pyval_of_str (compassRose d))
  else if String.eqb name "realETO" then Ok (pyval_of_float (realETO d))
  else if String.eqb name "radiationUV" then Ok (pyval_of_float (radiationUV d))
  else if String.eqb name "source" then Ok (PyStr (source d))
  else Raise (AttributeError ("'DataReceived' object has no attribute '" ++ name ++ "'")).

(** A request body whose values have the declared types: each key is
    absent ([None], which also stands for an explicit null) or holds a
    value of its field's type. Ill-typed bodies are outside this model. *)
Record body : Type := mk_body {
  b_stationTime : option datetime;
  b_temperature : option float;
  b_precipitation : option float;
  b_realPrecipitation : option float;
  b_presure : option float;
  b_windSpeed : option float;
  b_windDirection : option float;
  b_humidity : option float;
  b_radiation : option float;
  b_eto : option float;
  b_compassRose : option string;
  b_realETO : option float;
  b_radiationUV : option float;
  b_source : option string
}.

Definition missing_fields (b : body) : list string :=
  ((match b_stationTime b with None => ["stationTime"] | Some _ => [] end)
   ++ (match b_source b with None => ["source"] | Some _ => [] end))%list.

(** Model validation: [stationTime: datetime] and [source: str] have no
    default and are required; every other field is [Optional[...] = None].
    No field carries a constraint ([Field(...)] is imported but unused). *)
Definition validate (b : body) : result t :=
  match b_stationTime b, b_source b with
  | Some st, Some src =>
      Ok (mk st (b_temperature b) (b_precipitation b)
            (b_realPrecipitation b) (b_presure b) (b_windSpeed b)
            (b_windDirection b) (b_humidity b) (b_radiation b) (b_eto b)
            (b_compassRose b) (b_realETO b) (b_radiationUV b) src)
  | _, _ => Raise (ValidationError (missing_fields b))
  end.

End DataReceived.

(** ** [class DataResponse(BaseModel)] *)
Record DataResponse : Type := mkDataResponse {
  success : bool;
  message : string;
  response_id : option Z
}.

(** ** [class WeatherDataSummary(BaseModel)]: the projection served by the
    listing. *)
Record WeatherDataSummary : Type := mkSummary {
  sm_id : Z;
  sm_station_time : datetime;
  sm_source : string;
  sm_temperature : option float;
  sm_humidity : option float;
  sm_wind_speed : option float;
  sm_created_at : datetime
}.

Definition summary_of (r : WeatherStationData.t) : WeatherDataSummary :=
  mkSummary (WeatherStationData.id r) (WeatherStationData.station_time r)
    (WeatherStationData.source r) (WeatherStationData.temperature r)
    (WeatherStationData.humidity r) (WeatherStationData.wind_speed r)
    (WeatherStationData.created_at r).

(* ================================================================== *)
(** * The persistence layer *)
(* ================================================================== *)

(** Modelled from the spec: [app/database.py] ([Base], [engine] and the
    session handed out by [get_db]) is not among the sources. The store is
    the Record Store of the specification: one durable table with insert,
    point lookup, filtered and ordered scan, delete and aggregates, behind
    a transactional session. The table is its rows in insertion order and
    the next value of the [id] sequence (never handed out twice, also
    after a delete). *)
Record Table : Type := mkTable {
  rows : list WeatherStationData.t;
  next_id : Z
}.

(** A session is a unit of work over the table: objects added and not yet
    inserted, loaded objects with a changed attribute, and the ids of the
    objects marked for deletion. [commit] writes all of them or none. *)
Record Session : Type := mkSession {
  table : Table;
  new : list WeatherStationData.t;
  dirty : list WeatherStationData.t;
  deleted : list Z
}.

(** The session a request starts with. *)
Definition open_session (t : Table) : Session := mkSession t [] [] [].

(** ** Handlers with effects: state and exceptions *)

Definition M (A : Type) : Type := Session -> Session * result A.

Definition ret {A : Type} (a : A) : M A := fun s => (s, Ok a).

Definition raise {A : Type} (e : Exn) : M A := fun s => (s, Raise e).

Definition lift {A : Type} (r : result A) : M A := fun s => (s, r).

Definition bind {A B : Type} (m : M A) (k : A -> M B) : M B :=
  fun s =>
    match m s with
    | (s', Ok a) => k a s'
    | (s', Raise e) => (s', Raise e)
    end.

(** [try: body / except Exception as e: handler e] *)
Definition try_except {A : Type} (body : M A) (handler : Exn -> M A) : M A :=
  fun s =>
    match body s with
    | (s', Ok a) => (s', Ok a)
    | (s', Raise e) => handler e s'
    end.

Notation "x <- m ;; k" := (bind m (fun x => k))
  (at level 61, m at next level, right associativity).
Notation "m ;;; k" := (bind m (fun _ => k))
  (at level 61, right associativity).

(** ** Session operations *)

(** [db.add(obj)] *)
Definition db_add (obj : WeatherStationData.t) : M unit :=
  fun s => (mkSession (table s) (new s ++ [obj])%list (dirty s) (deleted s), Ok tt).

(** [db.delete(obj)] *)
Definition db_delete (obj : WeatherStationData.t) : M unit :=
  fun s => (mkSession (table s) (new s) (dirty s)
              (deleted s ++ [WeatherStationData.id obj])%list, Ok tt).

(** [db.rollback()]: the pending work is dropped, the table is as it was. *)
Definition db_rollback : M unit :=
  fun s => (open_session (table s), Ok tt).

(** [obj.processed = v] on a loaded object. An assignment of the value the
    attribute already has is no net change and schedules no UPDATE. *)
Definition set_processed (obj : WeatherStationData.t) (v : Z) : M unit :=
  fun s =>
    if WeatherStationData.processed obj =? v then (s, Ok tt)
    else (mkSession (table s) (new s)
            (dirty s ++ [WeatherStationData.with_processed v obj])%list
            (deleted s), Ok tt).

(** The length limits of the [String(100)] and [String(10)] columns,
    which the database enforces on INSERT. *)
Definition fits_columns (r : WeatherStationData.t) : bool :=
  (Z.of_nat (String.length (WeatherStationData.source r)) <=? 100)
  && match WeatherStationData.compass_rose r with
     | None => true
     | Some c => Z.of_nat (String.length c) <=? 10
     end.

(** INSERT of the added objects, in order: each takes the next sequence
    value as [id], [processed = 0] and [created_at = now()]. *)
Fixpoint insert_all (now : datetime) (objs : list WeatherStationData.t)
    (t : Table) : Table :=
  match objs with
  | [] => t
  | o :: objs' =>
      insert_all now objs'
        (mkTable (rows t ++ [WeatherStationData.with_id_created (next_id t) now o])%list
                 (next_id t + 1))
  end.

(** UPDATE of one changed object by primary key; [onupdate=func.now()]
    stamps [updated_at]. *)
Definition update_row (now : datetime) (o : WeatherStationData.t)
    (rs : list WeatherStationData.t) : list WeatherStationData.t :=
  map (fun r =>
         if WeatherStationData.id r =? WeatherStationData.id o
         then WeatherStationData.with_updated_at now o
         else r) rs.

Definition update_all (now : datetime) (objs : list WeatherStationData.t)
    (rs : list WeatherStationData.t) : list WeatherStationData.t :=
  fold_left (fun acc o => update_row now o acc) objs rs.

(** DELETE by primary key. *)
Definition delete_all (ids : list Z) (rs : list WeatherStationData.t)
    : list WeatherStationData.t :=
  filter (fun r => negb (existsb (Z.eqb (WeatherStationData.id r)) ids)) rs.

(** [db.commit()]: flush the unit of work in one transaction. A value too
    long for its column aborts the transaction: nothing is written and the
    session keeps its pending work until it is rolled back. *)
Definition db_commit (now : datetime) : M unit :=
  fun s =>
    if forallb fits_columns (new s) then
      let t1 := insert_all now (new s) (table s) in
      let rs := delete_all (deleted s) (update_all now (dirty s) (rows t1)) in
      (open_session (mkTable rs (next_id t1)), Ok tt)
    else (s, Raise (DataError "value too long for type character varying")).

(** [db.refresh(obj)] on the object this session inserted last: its row,
    the most recent one of the table. *)
Definition db_refresh (obj : WeatherStationData.t) : M WeatherStationData.t :=
  fun s => (s, Ok (last (rows (table s)) obj)).

(** ** Queries *)

(** [db.query(WeatherStationData)]: the rows of the table. *)
Definition db_query (db : Session) : list WeatherStationData.t :=
  rows (table db).

(** [.first()] *)
Definition first {A : Type} (q : list A) : option A := hd_error q.

(** [.offset(n)] and [.limit(n)] *)
Definition offset {A : Type} (n : Z) (q : list A) : list A := skipn (Z.to_nat n) q.
Definition limit_ {A : Type} (n : Z) (q : list A) : list A := firstn (Z.to_nat n) q.

(** [.order_by(...)]: a stable insertion sort; rows with equal keys keep
    their table order. *)
Fixpoint insert_by {A : Type} (le : A -> A -> bool) (x : A) (l : list A) : list A :=
  match l with
  | [] => [x]
  | y :: l' => if le x y then x :: l else y :: insert_by le x l'
  end.

Definition sort_by {A : Type} (le : A -> A -> bool) (l : list A) : list A :=
  fold_right (insert_by le) [] l.

Definition station_time_asc (a b : WeatherStationData.t) : bool :=
  WeatherStationData.station_time a <=? WeatherStationData.station_time b.

Definition station_time_desc (a b : WeatherStationData.t) : bool :=
  WeatherStationData.station_time b <=? WeatherStationData.station_time a.

Definition order_by_station_time_asc := sort_by station_time_asc.
Definition order_by_station_time_desc := sort_by station_time_desc.

(** The non-NULL values of a column, in row order. *)
Fixpoint non_null {A B : Type} (col : A -> option B) (rs : list A) : list B :=
  match rs with
  | [] => []
  | r :: rs' =>
      match col r with
      | Some v => v :: non_null col rs'
      | None => non_null col rs'
      end
  end.

(** Order of [double precision] in the database: [NaN] equals itself and
    is greater than every other value. *)
Definition float8_lt (a b : float) : bool :=
  if is_nan a then false
  else if is_nan b then true
  else PrimFloat.ltb a b.

(** [func.avg], [func.max], [func.min] over a nullable column: NULLs are
    skipped, and the result is NULL when nothing is left. *)
Definition sql_avg (xs : list float) : option float :=
  match xs with
  | [] => None
  | _ :: _ => Some (py_sum xs / float_of_len xs)%float
  end.

Definition sql_max (xs : list float) : option float :=
  match xs with
  | [] => None
  | x :: xs' => Some (fold_left (fun m v => if float8_lt m v then v else m) xs' x)
  end.

Definition sql_min (xs : list float) : option float :=
  match xs with
  | [] => None
  | x :: xs' => Some (fold_left (fun m v => if float8_lt v m then v else m) xs' x)
  end.

(** [func.count(id)] *)
Definition sql_count {A : Type} (rs : list A) : Z := Z.of_nat (List.length rs).

(** [Query(default, ge=lo, le=hi)] on an integer parameter. *)
Definition Query (name : string) (lo : Z) (hi : option Z) (v : Z) : result Z :=
  if v <? lo then Raise (RequestValidationError name)
  else match hi with
       | Some h => if h <? v then Raise (RequestValidationError name) else Ok v
       | None => Ok v
       end.

(* ================================================================== *)
(** * [app/routers/webhook.py] *)
(* ================================================================== *)

(** [str(n)] of an integer, for the f-strings of the messages. *)
Definition str_of_Z (n : Z) : string :=
  DecimalString.NilZero.string_of_int (Z.to_int n).

(** ** [POST /webhook] *)

(** [receive_weather_data(data, db)]. The keyword arguments of the
    constructor call are evaluated left to right before the call; the
    fourteen that read declared fields cannot fail, the five that follow
    read [data.activeSensor], [data.solarPanel], [data.openDoor],
    [data.lowBattery] and [data.observations]. *)
Definition receive_weather_data (now : datetime) (data : DataReceived.t)
    : M DataResponse :=
  try_except
    (active_sensor <- lift (DataReceived.getattr data "activeSensor") ;;
     solar_panel <- lift (DataReceived.getattr data "solarPanel") ;;
     open_door <- lift (DataReceived.getattr data "openDoor") ;;
     low_battery <- lift (DataReceived.getattr data "lowBattery") ;;
     observations <- lift (DataReceived.getattr data "observations") ;;
     db_data <- lift (WeatherStationData.init
                        (DataReceived.stationTime data)
                        (DataReceived.source data)
                        (DataReceived.temperature data)
                        (DataReceived.precipitation data)
                        (DataReceived.realPrecipitation data)
                        (DataReceived.presure data)
                        (DataReceived.windSpeed data)
                        (DataReceived.windDirection data)
                        (DataReceived.humidity data)
                        (DataReceived.radiation data)
                        (DataReceived.eto data)
                        (DataReceived.compassRose data)
                        (DataReceived.realETO data)
                        (DataReceived.radiationUV data)
                        [ ("active_sensor", active_sensor);
                          ("solar_panel", solar_panel);
                          ("open_door", open_door);
                          ("low_battery", low_battery);
                          ("observations", observations) ]) ;;
     db_add db_data ;;;
     db_commit now ;;;
     db_data <- db_refresh db_data ;;
     ret (mkDataResponse true
            "Datos meteorológicos recibidos y guardados correctamente"
            (Some (WeatherStationData.id db_data))))
    (fun e =>
       db_rollback ;;;
       raise (HTTPException 500 ("Error al guardar datos: " ++ str e))).

(** The ingest operation as a client sees it: the body is validated
    against [DataReceived] (422 on failure, the handler is not entered),
    then handed to the handler. *)
Definition ingest (now : datetime) (b : DataReceived.body) : M DataResponse :=
  data <- lift (DataReceived.validate b) ;;
  receive_weather_data now data.

(** ** [GET /data] *)

Definition source_is (s : string) (r : WeatherStationData.t) : bool :=
  String.eqb (WeatherStationData.source r) s.

Definition since (t : datetime) (r : WeatherStationData.t) : bool :=
  t <=? WeatherStationData.station_time r.

Definition until (t : datetime) (r : WeatherStationData.t) : bool :=
  WeatherStationData.station_time r <=? t.

(** [get_all_weather_data(skip, limit, source, start_date, end_date, db)].
    [if source:] is false for [None] and for the empty string; a
    [datetime] is always true, so [if start_date:] tests for [None]. *)
Definition get_all_weather_data (skip limit : Z) (source : option string)
    (start_date end_date : option datetime) (db : Session)
    : result (list WeatherStationData.t) :=
  match Query "skip" 0 None skip with
  | Raise e => Raise e
  | Ok skip =>
  match Query "limit" 1 (Some 1000) limit with
  | Raise e => Raise e
  | Ok limit =>
      let query := db_query db in
      let query :=
        if optional_str_bool source
        then match source with
             | Some s => filter (source_is s) query
             | None => query
             end
        else query in
      let query :=
        match start_date with
        | Some t => filter (since t) query
        | None => query
        end in
      let query :=
        match end_date with
        | Some t => filter (until t) query
        | None => query
        end in
      Ok (limit_ limit (offset skip (order_by_station_time_desc query)))
  end end.

(** ** [GET /data/{data_id}] *)

Definition id_is (i : Z) (r : WeatherStationData.t) : bool :=
  WeatherStationData.id r =? i.

Definition get_weather_data_by_id (data_id : Z) (db : Session)
    : result WeatherStationData.t :=
  match first (filter (id_is data_id) (db_query db)) with
  | None =>
      Raise (HTTPException 404
               ("No se encontraron datos con ID " ++ str_of_Z data_id))
  | Some data => Ok data
  end.

(** ** [GET /data/latest/all] *)

(** [GROUP BY source]: the distinct sources, in order of first
    appearance. *)
Fixpoint group_by_source (rs : list WeatherStationData.t) : list string :=
  match rs with
  | [] => []
  | r :: rs' =>
      WeatherStationData.source r
        :: filter (fun s => negb (String.eqb s (WeatherStationData.source r)))
             (group_by_source rs')
  end.

(** [func.max(id)] over the rows of one group (never empty). *)
Definition max_id (rs : list WeatherStationData.t) : Z :=
  match map WeatherStationData.id rs with
  | [] => 0
  | i :: ids => fold_left Z.max ids i
  end.

(** The subquery: one [(source, max_id)] row per group. *)
Definition latest_subquery (rs : list WeatherStationData.t) : list (string * Z) :=
  map (fun s => (s, max_id (filter (source_is s) rs))) (group_by_source rs).

(** [.join(subquery, WeatherStationData.id == subquery.c.max_id)]: a row
    of the table once for every subquery row it matches. *)
Definition join_on_max_id (rs : list WeatherStationData.t)
    (sub : list (string * Z)) : list WeatherStationData.t :=
  flat_map (fun r =>
              map (fun _ => r)
                  (filter (fun g => WeatherStationData.id r =? snd g) sub)) rs.

Definition get_latest_from_all_sources (db : Session) : list WeatherStationData.t :=
  let subquery := latest_subquery (db_query db) in
  let latest_data := join_on_max_id (db_query db) subquery in
  latest_data.

(** ** [GET /statistics/source/{source_name}] *)

(** The rows of one source inside the trailing window. *)
Definition in_window (source_name : string) (time_threshold : datetime)
    (r : WeatherStationData.t) : bool :=
  source_is source_name r && since time_threshold r.

(** The one row the aggregate query returns. *)
Record StatsRow : Type := mkStatsRow {
  avg_temp : option float;
  max_temp : option float;
  min_temp : option float;
  avg_humidity : option float;
  avg_wind_speed : option float;
  max_wind_speed : option float;
  total_records : Z
}.

Definition stats_query (source_name : string) (time_threshold : datetime)
    (db : Session) : StatsRow :=
  let q := filter (in_window source_name time_threshold) (db_query db) in
  mkStatsRow
    (sql_avg (non_null WeatherStationData.temperature q))
    (sql_max (non_null WeatherStationData.temperature q))
    (sql_min (non_null WeatherStationData.temperature q))
    (sql_avg (non_null WeatherStationData.humidity q))
    (sql_avg (non_null WeatherStationData.wind_speed q))
    (sql_max (non_null WeatherStationData.wind_speed q))
    (sql_count q).

(** [round(v, 2) if v else None] *)
Definition round2_if (v : option float) : option float :=
  if optional_float_bool v then option_map round2 v else None.

(** The returned dictionary. *)
Record StatsReport : Type := mkStatsReport {
  stats_source : string;
  stats_period_hours : Z;
  temperature_average : option float;
  temperature_maximum : option float;
  temperature_minimum : option float;
  humidity_average : option float;
  wind_speed_average : option float;
  wind_speed_maximum : option float;
  stats_total_records : Z
}.

(** [get_statistics_by_source(source_name, hours, db)]; [now] is
    [datetime.utcnow()]. The aggregate query has no GROUP BY, so
    [.first()] always yields its one row and [not stats] is false. *)
Definition get_statistics_by_source (now : datetime) (source_name : string)
    (hours : Z) (db : Session) : result StatsReport :=
  match Query "hours" 1 (Some 720) hours with
  | Raise e => Raise e
  | Ok hours =>
      let time_threshold := now - timedelta_hours hours in
      let stats := stats_query source_name time_threshold db in
      if total_records stats =? 0 then
        Raise (HTTPException 404
                 ("No hay datos suficientes para '" ++ source_name
                  ++ "' en las últimas " ++ str_of_Z hours ++ " horas"))
      else
        Ok (mkStatsReport source_name hours
              (round2_if (avg_temp stats))
              (round2_if (max_temp stats))
              (round2_if (min_temp stats))
              (round2_if (avg_humidity stats))
              (round2_if (avg_wind_speed stats))
              (round2_if (max_wind_speed stats))
              (total_records stats))
  end.

(** ** [GET /predict/rain_probability/{source_name}] *)

Record RainReport : Type := mkRainReport {
  rain_source : string;
  rain_period_hours : Z;
  rain_probability : Z;
  records_analyzed : Z;
  debug_average_humidity : float;
  debug_pressure_change : float;
  debug_total_precipitation : float
}.

(** The windowed fetch: rows of the source with
    [station_time >= time_threshold], by ascending [station_time]. *)
Definition recent_data_query (source_name : string) (time_threshold : datetime)
    (db : Session) : list WeatherStationData.t :=
  order_by_station_time_asc
    (filter (in_window source_name time_threshold) (db_query db)).

(** [get_rain_probability(source_name, hours, db)]; [now] is
    [datetime.utcnow()]. *)
Definition get_rain_probability (now : datetime) (source_name : string)
    (hours : Z) (db : Session) : result RainReport :=
  match Query "hours" 1 (Some 48) hours with
  | Raise e => Raise e
  | Ok hours =>
      let time_threshold := now - timedelta_hours hours in
      let recent_data := recent_data_query source_name time_threshold db in
      if Z.of_nat (List.length recent_data) <? 2 then
        Raise (HTTPException 404
                 ("No hay suficientes datos para '" ++ source_name
                  ++ "' en las últimas " ++ str_of_Z hours
                  ++ " horas para hacer una predicción."))
      else
        match recent_data with
        | [] => Raise (IndexError "list index out of range")
        | d0 :: _ =>
            let probability := 0 in
            let pressure_change := 0%float in
            let humidities := non_null WeatherStationData.humidity recent_data in
            let avg_humidity :=
              match humidities with
              | [] => 0%float
              | _ :: _ => (py_sum humidities / float_of_len humidities)%float
              end in
            let probability :=
              if (90 <? avg_humidity)%float then probability + 30
              else if (75 <? avg_humidity)%float then probability + 15
              else probability in
            let first_pressure := WeatherStationData.presure d0 in
            let last_pressure := WeatherStationData.presure (last recent_data d0) in
            let '(pressure_change, probability) :=
              match first_pressure, last_pressure with
              | Some fp, Some lp =>
                  let pressure_change := (lp - fp)%float in
                  (pressure_change,
                   if (pressure_change <? -1.5)%float then probability + 35
                   else if (pressure_change <? -0.5)%float then probability + 15
                   else probability)
              | _, _ => (pressure_change, probability)
              end in
            let total_precipitation :=
              py_sum (non_null WeatherStationData.real_precipitation recent_data) in
            let probability :=
              if (0.1 <? total_precipitation)%float then probability + 25
              else probability in
            let final_probability := Z.min probability 100 in
            Ok (mkRainReport source_name hours final_probability
                  (Z.of_nat (List.length recent_data))
                  (round2 avg_humidity)
                  (round2 pressure_change)
                  (round2 total_precipitation))
        end
  end.

(** ** [PUT /data/{data_id}/mark-processed] and [DELETE /data/{data_id}] *)

Record Ack : Type := mkAck {
  ack_success : bool;
  ack_message : string;
  ack_id : Z
}.

(** [db.query(WeatherStationData).filter(id == data_id).first()] *)
Definition query_by_id (data_id : Z) : M (option WeatherStationData.t) :=
  fun s => (s, Ok (first (filter (id_is data_id) (db_query s)))).

Definition mark_as_processed (now : datetime) (data_id : Z) : M Ack :=
  data <- query_by_id data_id ;;
  match data with
  | None => raise (HTTPException 404 "Dato no encontrado")
  | Some data =>
      set_processed data 1 ;;;
      db_commit now ;;;
      ret (mkAck true "Dato marcado como procesado" data_id)
  end.

Definition delete_weather_data (now : datetime) (data_id : Z) : M Ack :=
  data <- query_by_id data_id ;;
  match data with
  | None => raise (HTTPException 404 "Dato no encontrado")
  | Some data =>
      db_delete data ;;;
      db_commit now ;;;
      ret (mkAck true "Dato eliminado correctamente" data_id)
  end.

(** ** [GET /data/source/{source_name}] *)

(** [get_data_by_source(source_name, limit, db)]; [if not data] is true
    for the empty list. *)
Definition get_data_by_source (source_name : string) (limit : Z) (db : Session)
    : result (list WeatherStationData.t) :=
  match Query "limit" 1 (Some 500) limit with
  | Raise e => Raise e
  | Ok limit =>
      let data :=
        limit_ limit
          (order_by_station_time_desc
             (filter (source_is source_name) (db_query db))) in
      match data with
      | [] =>
          Raise (HTTPException 404
                   ("No se encontraron datos para la fuente '" ++ source_name ++ "'"))
      | _ :: _ => Ok data
      end
  end.

(** ** [GET /sources/list] *)

Record SourcesReport : Type := mkSourcesReport {
  sources_total : Z;
  sources_list : list string
}.

(** [list_all_sources(db)]. [.distinct()] keeps one row per source value
    and [.order_by(source)] sorts them by the collation of the column,
    which the database fixes: it is the parameter [collation]. *)
Definition list_all_sources (collation : string -> string -> bool)
    (db : Session) : SourcesReport :=
  let sources := sort_by collation (group_by_source (db_query db)) in
  mkSourcesReport (Z.of_nat (List.length sources)) sources.

(* ================================================================== *)
(** * Specification vocabulary *)
(* ================================================================== *)

(** The notions the statements below are phrased with: orderings, the
    filters of a listing, the latest row of a source, the key of the
    table, and the three rules of the rain heuristic as the documentation
    words them (each over the readings of the window in ascending
    [station_time] order). *)

(** Rows in descending and in ascending [station_time] order. *)
Definition desc_by_station_time : list WeatherStationData.t -> Prop :=
  StronglySorted (fun a b =>
    WeatherStationData.station_time b <= WeatherStationData.station_time a).

Definition asc_by_station_time : list WeatherStationData.t -> Prop :=
  StronglySorted (fun a b =>
    WeatherStationData.station_time a <= WeatherStationData.station_time b).

(** The filters of a listing request as one predicate: a source filter
    when a non-empty source is given, and the two inclusive time bounds. *)
Definition matches_filters (source : option string)
    (start_date end_date : option datetime) (r : WeatherStationData.t) : bool :=
  match source with
  | Some s => if String.eqb s "" then true else String.eqb (WeatherStationData.source r) s
  | None => true
  end
  && match start_date with
     | Some t => t <=? WeatherStationData.station_time r
     | None => true
     end
  && match end_date with
     | Some t => WeatherStationData.station_time r <=? t
     | None => true
     end.

(** [r] is the row of greatest [id] among the rows of its source. *)
Definition is_latest (rs : list WeatherStationData.t)
    (r : WeatherStationData.t) : bool :=
  WeatherStationData.id r
  =? max_id (filter (source_is (WeatherStationData.source r)) rs).

(** [id] is a key and every id was handed out by the sequence. *)
Definition key_ok (t : Table) : Prop :=
  NoDup (map WeatherStationData.id (rows t))
  /\ Forall (fun r => WeatherStationData.id r < next_id t) (rows t).

(** Rule 1: the average of the humidities that are present ([0] when none
    is): above 90 scores 30, else above 75 scores 15. *)
Definition mean_humidity (readings : list WeatherStationData.t) : float :=
  match non_null WeatherStationData.humidity readings with
  | [] => 0%float
  | h :: hs => (py_sum (h :: hs) / float_of_len (h :: hs))%float
  end.

Definition humidity_points (readings : list WeatherStationData.t) : Z :=
  if (90 <? mean_humidity readings)%float then 30
  else if (75 <? mean_humidity readings)%float then 15
  else 0.

(** Rule 2: pressure of the last reading minus pressure of the first,
    defined only when both are present: below -1.5 scores 35, else below
    -0.5 scores 15. *)
Definition endpoint_pressure_change (readings : list WeatherStationData.t)
    : option float :=
  match readings with
  | [] => None
  | d0 :: _ =>
      match WeatherStationData.presure d0,
            WeatherStationData.presure (last readings d0) with
      | Some first_pressure, Some last_pressure =>
          Some (last_pressure - first_pressure)%float
      | _, _ => None
      end
  end.

Definition pressure_points (readings : list WeatherStationData.t) : Z :=
  match endpoint_pressure_change readings with
  | Some change =>
      if (change <? -1.5)%float then 35
      else if (change <? -0.5)%float then 15
      else 0
  | None => 0
  end.

(** Rule 3: the sum of the real precipitation values that are present:
    above 0.1 scores 25. *)
Definition precipitation_total (readings : list WeatherStationData.t) : float :=
  py_sum (non_null WeatherStationData.real_precipitation readings).

Definition precipitation_points (readings : list WeatherStationData.t) : Z :=
  if (0.1 <? precipitation_total readings)%float then 25 else 0.


(* ================================================================== *)
(** * Sample data *)
(* ================================================================== *)

Definition hour : Z := 3600000000.

(** 2023-10-27T10:00:00Z *)
Definition t0 : datetime := 1698400800000000.

(** A row with the given key columns and measurements; every other
    measurement absent. *)
Definition reading (i : Z) (t : datetime) (s : string)
    (temp hum pres rain wind : option float) : WeatherStationData.t :=
  WeatherStationData.mk i t s temp None rain pres wind None hum None None None
    None None 0 t None.

(** Two stations, three rows, delivered out of order. *)
Definition sample_table : Table :=
  mkTable
    [ reading 1 (t0 + 2 * hour) "sensor_001" (Some 25.5%float) (Some 60%float) None None None;
      reading 2 (t0 + 1 * hour) "sensor_002" (Some 19%float) None None None None;
      reading 3 t0 "sensor_001" None (Some 70%float) None None None ]
    4.

Definition sample_db : Session := open_session sample_table.

(** A session over the sample table with one object added and not yet
    committed. *)
Definition pending_session : Session :=
  mkSession sample_table
    [ reading 0 t0 "sensor_003" None None None None None ] [] [].

(** Two readings of one station: humidity 95 and 95, pressure 1010 then
    1008, real precipitation 0.1 and 0.1. *)
Definition two_readings_table : Table :=
  mkTable
    [ reading 1 t0 "sensor_001" None (Some 95%float) (Some 1010%float)
        (Some 0.1%float) None;
      reading 2 (t0 + hour) "sensor_001" None (Some 95%float) (Some 1008%float)
        (Some 0.1%float) None ]
    3.

(** One reading at the freezing point, with no wind. *)
Definition freezing_table : Table :=
  mkTable
    [ reading 1 t0 "sensor_001" (Some 0%float) (Some 55%float) None None
        (Some 0%float) ]
    2.

Definition empty_table : Table := mkTable [] 1.

(** The example body of [DataReceived.Config]. *)
Definition example_body : DataReceived.body :=
  DataReceived.mk_body (Some t0)
    (Some 25.5%float) (Some 0%float) (Some 0%float) (Some 1012.5%float)
    (Some 10.2%float) (Some 180%float) (Some 60%float) (Some 500%float)
    (Some 0.2%float) (Some "S") (Some 0.21%float) (Some 5%float)
    (Some "sensor_001").

(** The example body, validated. *)
Definition example_data : DataReceived.t :=
  DataReceived.mk t0
    (Some 25.5%float) (Some 0%float) (Some 0%float) (Some 1012.5%float)
    (Some 10.2%float) (Some 180%float) (Some 60%float) (Some 500%float)
    (Some 0.2%float) (Some "S") (Some 0.21%float) (Some 5%float)
    "sensor_001".

(** A body with the required fields only, the source being empty. *)
Definition empty_source_body : DataReceived.body :=
  DataReceived.mk_body (Some t0) None None None None None None None None None
    None None None (Some "").

(* ================================================================== *)
(** * Properties of the persistence layer *)
(* ================================================================== *)

Section Sorting.

Context {A : Type} (le : A -> A -> bool).

Lemma insert_by_perm (x : A) (l : list A) :
  Permutation (x :: l) (insert_by le x l).
Proof.
  induction l as [|y l IH]; simpl.
  - apply Permutation_refl.
  - destruct (le x y).
    + apply Permutation_refl.
    + eapply perm_trans; [apply perm_swap|].
      now apply perm_skip.
Qed.

Lemma sort_by_perm (l : list A) : Permutation l (sort_by le l).
Proof.
  induction l as [|x l IH]; simpl.
  - constructor.
  - eapply perm_trans; [apply perm_skip, IH|].
    apply insert_by_perm.
Qed.

Lemma sort_by_length (l : list A) : List.length (sort_by le l) = List.length l.
Proof. symmetry. apply Permutation_length, sort_by_perm. Qed.

Lemma sort_by_in (l : list A) (x : A) : In x (sort_by le l) <-> In x l.
Proof.
  split; intro H.
  - eapply Permutation_in; [apply Permutation_sym, sort_by_perm | exact H].
  - eapply Permutation_in; [apply sort_by_perm | exact H].
Qed.

Hypothesis le_total : forall a b, le a b = false -> le b a = true.
Hypothesis le_trans : forall a b c, le a b = true -> le b c = true -> le a c = true.

Lemma insert_by_sorted (x : A) (l : list A) :
  StronglySorted (fun a b => le a b = true) l ->
  StronglySorted (fun a b => le a b = true) (insert_by le x l).
Proof.
  induction 1 as [|y l Hs IH Hy]; simpl.
  - repeat constructor.
  - destruct (le x y) eqn:E.
    + constructor.
      * now constructor.
      * constructor; [exact E|].
        rewrite Forall_forall in *. intros z Hz. eauto.
    + constructor; [exact IH|].
      rewrite Forall_forall in *. intros z Hz.
      apply (Permutation_in _ (Permutation_sym (insert_by_perm x l))) in Hz.
      destruct Hz as [<-|Hz]; auto.
Qed.

Lemma sort_by_sorted (l : list A) :
  StronglySorted (fun a b => le a b = true) (sort_by le l).
Proof.
  induction l as [|x l IH]; simpl.
  - constructor.
  - now apply insert_by_sorted.
Qed.

End Sorting.

Lemma StronglySorted_impl {A : Type} (R S : A -> A -> Prop) (l : list A) :
  (forall a b, R a b -> S a b) -> StronglySorted R l -> StronglySorted S l.
Proof.
  intros HRS. induction 1 as [|x l Hs IH Hx]; constructor; auto.
  eapply Forall_impl; [|exact Hx]. intros; auto.
Qed.

Lemma order_by_desc_sorted (q : list WeatherStationData.t) :
  desc_by_station_time (order_by_station_time_desc q).
Proof.
  unfold desc_by_station_time, order_by_station_time_desc.
  eapply StronglySorted_impl; [|apply (sort_by_sorted station_time_desc)].
  - unfold station_time_desc. intros a b H. now apply Z.leb_le in H.
  - unfold station_time_desc. intros a b H.
    apply Z.leb_gt in H. apply Z.leb_le. lia.
  - unfold station_time_desc. intros a b c H1 H2.
    apply Z.leb_le in H1, H2. apply Z.leb_le. lia.
Qed.

Lemma order_by_asc_sorted (q : list WeatherStationData.t) :
  asc_by_station_time (order_by_station_time_asc q).
Proof.
  unfold asc_by_station_time, order_by_station_time_asc.
  eapply StronglySorted_impl; [|apply (sort_by_sorted station_time_asc)].
  - unfold station_time_asc. intros a b H. now apply Z.leb_le in H.
  - unfold station_time_asc. intros a b H.
    apply Z.leb_gt in H. apply Z.leb_le. lia.
  - unfold station_time_asc. intros a b c H1 H2.
    apply Z.leb_le in H1, H2. apply Z.leb_le. lia.
Qed.

(** A page of a sorted list is sorted. *)
Lemma StronglySorted_skipn {A : Type} (R : A -> A -> Prop) (n : nat) (l : list A) :
  StronglySorted R l -> StronglySorted R (skipn n l).
Proof.
  revert l. induction n as [|n IH]; intros l H; simpl; [exact H|].
  destruct l as [|x l]; [constructor|].
  apply IH. now inversion H.
Qed.

Lemma StronglySorted_firstn {A : Type} (R : A -> A -> Prop) (n : nat) (l : list A) :
  StronglySorted R l -> StronglySorted R (firstn n l).
Proof.
  revert l. induction n as [|n IH]; intros l H; simpl; [constructor|].
  destruct l as [|x l]; [constructor|].
  inversion H as [|? ? Hs Hx]; subst. constructor; [now apply IH|].
  rewrite Forall_forall in *. intros y Hy.
  apply Hx. rewrite <- (firstn_skipn n l). apply in_or_app. now left.
Qed.

Lemma filter_filter {A : Type} (p q : A -> bool) (l : list A) :
  filter p (filter q l) = filter (fun x => q x && p x) l.
Proof.
  induction l as [|x l IH]; simpl; [reflexivity|].
  destruct (q x); simpl; [destruct (p x)|]; now rewrite ?IH.
Qed.

Lemma filter_all {A : Type} (p : A -> bool) (l : list A) :
  (forall x, In x l -> p x = true) -> filter p l = l.
Proof.
  induction l as [|x l IH]; simpl; intro H; [reflexivity|].
  rewrite (H x (or_introl eq_refl)). f_equal. apply IH. intros; apply H; now right.
Qed.

Lemma filter_none {A : Type} (p : A -> bool) (l : list A) :
  (forall x, In x l -> p x = false) -> filter p l = [].
Proof.
  induction l as [|x l IH]; simpl; intro H; [reflexivity|].
  rewrite (H x (or_introl eq_refl)). apply IH. intros; apply H; now right.
Qed.

(* ================================================================== *)
(** * The listing, [GET /data] *)
(* ================================================================== *)

(** The query the handler builds, before ordering and pagination, is the
    conjunction of the filters over the table. *)
Lemma get_all_query_filtered (skip limit : Z) (source : option string)
    (start_date end_date : option datetime) (db : Session) :
  0 <= skip -> 1 <= limit <= 1000 ->
  get_all_weather_data skip limit source start_date end_date db
  = Ok (limit_ limit (offset skip (order_by_station_time_desc
          (filter (matches_filters source start_date end_date) (db_query db))))).
Proof.
  intros Hs Hl. unfold get_all_weather_data, Query.
  destruct (skip <? 0) eqn:E1; [apply Z.ltb_lt in E1; lia|].
  destruct (limit <? 1) eqn:E2; [apply Z.ltb_lt in E2; lia|].
  destruct (1000 <? limit) eqn:E3; [apply Z.ltb_lt in E3; lia|].
  do 4 f_equal.
  assert (Hsrc :
    (if optional_str_bool source
     then match source with
          | Some s => filter (source_is s) (db_query db)
          | None => db_query db
          end
     else db_query db)
    = filter (matches_filters source None None) (db_query db)).
  { unfold matches_filters, optional_str_bool, source_is.
    destruct source as [s|]; simpl.
    - destruct (String.eqb s ""); simpl.
      + symmetry. now apply filter_all.
      + apply filter_ext. intros r. now rewrite !andb_true_r.
    - symmetry. now apply filter_all. }
  rewrite Hsrc. clear Hsrc.
  destruct start_date as [t1|], end_date as [t2|];
    rewrite ?filter_filter; apply filter_ext; intros r;
    unfold matches_filters, since, until; simpl;
    rewrite ?andb_true_r; try reflexivity.
  now rewrite andb_assoc.
Qed.

(** C6 (as amended). For every listing request with [skip >= 0] and
    [1 <= limit <= 1000], the handler returns a page of a list [full] that
    holds exactly the rows passing every effective filter (a non-empty
    [source], [start_date], [end_date], conjunctively) in descending
    [station_time] order: the page skips [skip] rows and keeps at most
    [limit]. The page is itself ordered, never longer than [limit], empty
    when [skip] reaches the number of filtered rows, and empty when
    [start_date > end_date]. *)
Theorem list_is_page_of_filtered_desc (skip limit : Z) (source : option string)
    (start_date end_date : option datetime) (db : Session) :
  0 <= skip -> 1 <= limit <= 1000 ->
  exists full out,
    get_all_weather_data skip limit source start_date end_date db = Ok out
    /\ Permutation full
         (filter (matches_filters source start_date end_date) (db_query db))
    /\ desc_by_station_time full
    /\ out = firstn (Z.to_nat limit) (skipn (Z.to_nat skip) full)
    /\ desc_by_station_time out
    /\ Z.of_nat (List.length out) <= limit
    /\ (Z.of_nat (List.length full) <= skip -> out = [])
    /\ (forall s e, start_date = Some s -> end_date = Some e -> e < s -> out = []).
Proof.
  intros Hs Hl.
  set (kept := filter (matches_filters source start_date end_date) (db_query db)).
  exists (order_by_station_time_desc kept).
  exists (limit_ limit (offset skip (order_by_station_time_desc kept))).
  split; [now apply get_all_query_filtered|].
  split; [apply Permutation_sym, sort_by_perm|].
  split; [apply order_by_desc_sorted|].
  split; [reflexivity|].
  split.
  { apply StronglySorted_firstn, StronglySorted_skipn, order_by_desc_sorted. }
  split.
  { unfold limit_. pose proof (firstn_le_length (Z.to_nat limit)
      (offset skip (order_by_station_time_desc kept))). lia. }
  split.
  { intros Hlen. unfold limit_, offset.
    rewrite skipn_all2 by lia. apply firstn_nil. }
  intros s e -> -> Hse.
  assert (Hk : kept = []).
  { apply filter_none. intros r _. unfold matches_filters.
    destruct (s <=? WeatherStationData.station_time r) eqn:E1;
      [|now rewrite andb_false_r].
    destruct (WeatherStationData.station_time r <=? e) eqn:E2;
      [|now rewrite andb_false_r].
    apply Z.leb_le in E1, E2. lia. }
  rewrite Hk. unfold limit_, offset. simpl.
  rewrite skipn_nil. apply firstn_nil.
Qed.

(** Witness of [list_is_page_of_filtered_desc]: the second page of size
    one of the rows of [sensor_001]. *)
Lemma list_is_page_of_filtered_desc_witness :
  (0 <= 1 /\ 1 <= 1 <= 1000)
  /\ exists full out,
       get_all_weather_data 1 1 (Some "sensor_001") None None sample_db = Ok out
       /\ Permutation full
            (filter (matches_filters (Some "sensor_001") None None) (db_query sample_db))
       /\ desc_by_station_time full
       /\ out = firstn (Z.to_nat 1) (skipn (Z.to_nat 1) full)
       /\ desc_by_station_time out
       /\ Z.of_nat (List.length out) <= 1
       /\ (Z.of_nat (List.length full) <= 1 -> out = [])
       /\ (forall s e, None = Some s -> None = Some e -> e < s -> out = []).
Proof.
  split; [lia|].
  apply (list_is_page_of_filtered_desc 1 1 (Some "sensor_001") None None sample_db); lia.
Defined.

(** C6 (as stated) fails: a request that supplies [source=""] gets rows
    whose source is not the empty string, so that supplied filter is not
    applied. *)
Lemma list_empty_source_not_applied :
  exists r out,
    get_all_weather_data 0 100 (Some "") None None sample_db = Ok out
    /\ In r out
    /\ WeatherStationData.source r <> "".
Proof.
  exists (reading 1 (t0 + 2 * hour) "sensor_001" (Some 25.5%float) (Some 60%float) None None None).
  eexists. split; [vm_compute; reflexivity|].
  split; [left; reflexivity | discriminate].
Qed.

(** C10. In the listing an empty-string [source] is the same request as no
    [source] at all, whatever the other parameters and the store: the
    answer is not restricted to rows whose source is empty, and on the
    sample table it holds the rows of both stations. *)
Theorem list_empty_source_is_no_filter (skip limit : Z)
    (start_date end_date : option datetime) (db : Session) :
  get_all_weather_data skip limit (Some "") start_date end_date db
  = get_all_weather_data skip limit None start_date end_date db
  /\ option_map (map WeatherStationData.source)
       (match get_all_weather_data 0 100 (Some "") None None sample_db with
        | Ok out => Some out
        | Raise _ => None
        end)
     = Some ["sensor_001"; "sensor_002"; "sensor_001"].
Proof.
  split.
  - unfold get_all_weather_data.
    destruct (Query "skip" 0 None skip); [|reflexivity].
    destruct (Query "limit" 1 (Some 1000) limit); reflexivity.
  - vm_compute. reflexivity.
Qed.

(* ================================================================== *)
(** * Ingestion, [POST /webhook] *)
(* ================================================================== *)

Lemma delete_all_nil (rs : list WeatherStationData.t) : delete_all [] rs = rs.
Proof. unfold delete_all. now apply filter_all. Qed.

Lemma Table_eta (t : Table) : mkTable (rows t) (next_id t) = t.
Proof. now destruct t. Qed.

(** A failed commit writes nothing. *)
Lemma db_commit_raise_unchanged (now : datetime) (s s' : Session) (e : Exn) :
  db_commit now s = (s', Raise e) -> s' = s.
Proof.
  unfold db_commit. destruct (forallb fits_columns (new s)); intro H.
  - discriminate.
  - now inversion H.
Qed.

(** The write path the handler is built on, taken on its own: an object
    added to a fresh session, committed and refreshed comes back as the
    row of the next sequence value, and the lookup by that id returns it
    with every column as given. *)
Lemma add_commit_refresh_round_trip (now : datetime) (t : Table)
    (obj : WeatherStationData.t) :
  key_ok t -> fits_columns obj = true ->
  (db_add obj ;;; db_commit now ;;; db_refresh obj) (open_session t)
  = (open_session
       (mkTable (rows t ++ [WeatherStationData.with_id_created (next_id t) now obj])%list
                (next_id t + 1)),
     Ok (WeatherStationData.with_id_created (next_id t) now obj))
  /\ get_weather_data_by_id (next_id t)
       (open_session
          (mkTable (rows t ++ [WeatherStationData.with_id_created (next_id t) now obj])%list
                   (next_id t + 1)))
     = Ok (WeatherStationData.with_id_created (next_id t) now obj).
Proof.
  intros [_ Hlt] Hfit. split.
  - unfold bind, db_add, db_commit, db_refresh. simpl.
    rewrite Hfit. simpl. rewrite delete_all_nil. now rewrite last_last.
  - unfold get_weather_data_by_id, db_query. simpl.
    rewrite filter_app, (filter_none (id_is (next_id t)) (rows t)).
    + simpl. unfold id_is. simpl. now rewrite Z.eqb_refl.
    + intros r Hr. rewrite Forall_forall in Hlt. specialize (Hlt r Hr).
      unfold id_is. apply Z.eqb_neq. lia.
Qed.

(** A failing body wrapped in the handler's [except] clause: the session
    is rolled back to its table and the failure is re-raised as a 500 that
    carries the cause. *)
Lemma try_except_rollback {A : Type} (body : M A) (s s1 : Session) (cause : Exn) :
  body s = (s1, Raise cause) ->
  try_except body
    (fun e => db_rollback ;;;
              raise (HTTPException 500 ("Error al guardar datos: " ++ str e))) s
  = (open_session (table s1),
     Raise (HTTPException 500 ("Error al guardar datos: " ++ str cause))).
Proof.
  intro H. unfold try_except, bind, db_rollback, raise. now rewrite H.
Qed.

(** The handler on any validated body and any session: reading
    [data.activeSensor] raises [AttributeError] before the row is built,
    and the [except] clause turns it into a 500. *)
Lemma receive_weather_data_raises (now : datetime) (data : DataReceived.t)
    (s : Session) :
  receive_weather_data now data s
  = (open_session (table s),
     Raise (HTTPException 500
       "Error al guardar datos: 'DataReceived' object has no attribute 'activeSensor'")).
Proof.
  unfold receive_weather_data.
  rewrite (try_except_rollback _ s s
             (AttributeError "'DataReceived' object has no attribute 'activeSensor'"));
    reflexivity.
Qed.

(** C1 (the code departs from it). The example body of the model is valid,
    yet ingesting it into an empty store does not succeed: the handler
    answers 500, no row is inserted, and the id a first insert would have
    taken is not found afterwards. *)
Theorem ingest_example_body_fails :
  (exists data, DataReceived.validate example_body = Ok data)
  /\ ingest t0 example_body (open_session empty_table)
     = (open_session empty_table,
        Raise (HTTPException 500
          "Error al guardar datos: 'DataReceived' object has no attribute 'activeSensor'"))
  /\ get_weather_data_by_id 1
       (fst (ingest t0 example_body (open_session empty_table)))
     = Raise (HTTPException 404 "No se encontraron datos con ID 1").
Proof.
  split; [eexists; reflexivity|].
  split; vm_compute; reflexivity.
Qed.

(** C8. Whenever the handler fails on a validated body, the table is
    exactly what it was, the session holds no pending insert, update or
    delete, and the caller gets a 500 whose detail is the fixed prefix
    followed by the text of the underlying exception. *)
Theorem ingest_failure_leaves_store_unchanged (now : datetime)
    (data : DataReceived.t) (s s' : Session) (e : Exn) :
  receive_weather_data now data s = (s', Raise e) ->
  table s' = table s
  /\ new s' = [] /\ dirty s' = [] /\ deleted s' = []
  /\ exists cause : Exn,
       str cause <> ""
       /\ e = HTTPException 500 ("Error al guardar datos: " ++ str cause).
Proof.
  rewrite receive_weather_data_raises. intro H. inversion H; subst; clear H.
  repeat split; try reflexivity.
  exists (AttributeError "'DataReceived' object has no attribute 'activeSensor'").
  split; [discriminate | reflexivity].
Qed.

(** Witness of [ingest_failure_leaves_store_unchanged]: the example data
    on a session with pending work. *)
Lemma ingest_failure_leaves_store_unchanged_witness :
  receive_weather_data t0 example_data pending_session
  = (sample_db,
     Raise (HTTPException 500
       "Error al guardar datos: 'DataReceived' object has no attribute 'activeSensor'"))
  /\ (table sample_db = table pending_session
      /\ new sample_db = [] /\ dirty sample_db = [] /\ deleted sample_db = []
      /\ exists cause : Exn,
           str cause <> ""
           /\ HTTPException 500
                "Error al guardar datos: 'DataReceived' object has no attribute 'activeSensor'"
              = HTTPException 500 ("Error al guardar datos: " ++ str cause)).
Proof.
  split; [reflexivity|].
  apply (ingest_failure_leaves_store_unchanged t0 example_data pending_session).
  reflexivity.
Defined.

(** C3 (as stated) fails: a body whose source is the empty string is not
    rejected by validation; it becomes a [DataReceived] with [source = ""]
    and whatever the request then reports is not a [ValidationError]. *)
Lemma empty_source_passes_validation :
  DataReceived.validate empty_source_body
  = Ok (DataReceived.mk t0 None None None None None None None None None None
          None None "")
  /\ forall missing,
       snd (ingest t0 empty_source_body (open_session empty_table))
       <> Raise (ValidationError missing).
Proof.
  split; [reflexivity|].
  intros missing. vm_compute. discriminate.
Qed.

(** C3 (as amended). Validation rejects a body exactly when [stationTime]
    or [source] is missing, with a [ValidationError] that the request
    reports without touching the session; every body that has both is
    accepted with each field as sent: any string as source, the empty one
    included, and any float, or none, in every measurement. *)
Theorem validation_rejects_exactly_missing_required (b : DataReceived.body) :
  ((exists missing, DataReceived.validate b = Raise (ValidationError missing))
   <-> (DataReceived.b_stationTime b = None \/ DataReceived.b_source b = None))
  /\ (forall now s,
        DataReceived.b_stationTime b = None \/ DataReceived.b_source b = None ->
        DataReceived.missing_fields b <> []
        /\ ingest now b s
           = (s, Raise (ValidationError (DataReceived.missing_fields b))))
  /\ (forall st src,
        DataReceived.b_stationTime b = Some st ->
        DataReceived.b_source b = Some src ->
        exists data,
          DataReceived.validate b = Ok data
          /\ DataReceived.stationTime data = st
          /\ DataReceived.source data = src
          /\ DataReceived.temperature data = DataReceived.b_temperature b
          /\ DataReceived.precipitation data = DataReceived.b_precipitation b
          /\ DataReceived.realPrecipitation data = DataReceived.b_realPrecipitation b
          /\ DataReceived.presure data = DataReceived.b_presure b
          /\ DataReceived.windSpeed data = DataReceived.b_windSpeed b
          /\ DataReceived.windDirection data = DataReceived.b_windDirection b
          /\ DataReceived.humidity data = DataReceived.b_humidity b
          /\ DataReceived.radiation data = DataReceived.b_radiation b
          /\ DataReceived.eto data = DataReceived.b_eto b
          /\ DataReceived.compassRose data = DataReceived.b_compassRose b
          /\ DataReceived.realETO data = DataReceived.b_realETO b
          /\ DataReceived.radiationUV data = DataReceived.b_radiationUV b).
Proof.
  split; [|split].
  - unfold DataReceived.validate. split.
    + intros [missing H].
      destruct (DataReceived.b_stationTime b); [|now left].
      destruct (DataReceived.b_source b); [discriminate|now right].
    + intros [H|H]; rewrite H.
      * eexists; reflexivity.
      * destruct (DataReceived.b_stationTime b); eexists; reflexivity.
  - intros now s H.
    unfold ingest, bind, lift, DataReceived.validate, DataReceived.missing_fields.
    destruct H as [H|H]; rewrite H.
    + split; [discriminate|reflexivity].
    + destruct (DataReceived.b_stationTime b); split;
        try discriminate; reflexivity.
  - intros st src Hst Hsrc. unfold DataReceived.validate.
    rewrite Hst, Hsrc. eexists. split; [reflexivity|].
    simpl. repeat split.
Qed.

(** Witness of [validation_rejects_exactly_missing_required]: the body
    with an empty source is accepted, a body without [source] is not. *)
Lemma validation_rejects_exactly_missing_required_witness :
  (exists data,
     DataReceived.validate empty_source_body = Ok data
     /\ DataReceived.source data = "")
  /\ (exists missing,
        DataReceived.validate
          (DataReceived.mk_body (Some t0) None None None None None None None
             None None None None None None)
        = Raise (ValidationError missing)).
Proof.
  split.
  - destruct (validation_rejects_exactly_missing_required empty_source_body)
      as (_ & _ & H).
    destruct (H t0 "" eq_refl eq_refl) as (data & Hv & _ & Hsrc & _).
    exists data. split; [exact Hv | exact Hsrc].
  - apply (validation_rejects_exactly_missing_required
             (DataReceived.mk_body (Some t0) None None None None None None None
                None None None None None None)).
    right. reflexivity.
Defined.

(* ================================================================== *)
(** * Marking a row as processed *)
(* ================================================================== *)

Lemma first_filter_id (i : Z) (rs : list WeatherStationData.t)
    (r : WeatherStationData.t) :
  first (filter (id_is i) rs) = Some r ->
  WeatherStationData.id r = i /\ In r rs.
Proof.
  intro H. assert (Hin : In r (filter (id_is i) rs)).
  { destruct (filter (id_is i) rs) as [|x l]; [discriminate|].
    simpl in H. inversion H. now left. }
  apply filter_In in Hin. destruct Hin as [Hin Hid].
  split; [|exact Hin]. unfold id_is in Hid. now apply Z.eqb_eq in Hid.
Qed.

(** After the UPDATE of object [o], the lookup by its id returns [o] with
    its new [updated_at]. *)
Lemma first_update_row (now : datetime) (o r : WeatherStationData.t)
    (rs : list WeatherStationData.t) :
  first (filter (id_is (WeatherStationData.id o)) rs) = Some r ->
  first (filter (id_is (WeatherStationData.id o)) (update_row now o rs))
  = Some (WeatherStationData.with_updated_at now o).
Proof.
  unfold id_is, update_row.
  induction rs as [|x rs IH]; [discriminate|].
  cbn [filter map]. cbn beta.
  destruct (WeatherStationData.id x =? WeatherStationData.id o) eqn:E.
  - intros _. cbn [WeatherStationData.id WeatherStationData.with_updated_at].
    now rewrite Z.eqb_refl.
  - rewrite E. exact IH.
Qed.

(** Marking a row that is already processed: success, and the session is
    left exactly as it was (no UPDATE is issued). *)
Lemma mark_processed_row (now : datetime) (data_id : Z) (t : Table)
    (r : WeatherStationData.t) :
  first (filter (id_is data_id) (rows t)) = Some r ->
  WeatherStationData.processed r = 1 ->
  mark_as_processed now data_id (open_session t)
  = (open_session t, Ok (mkAck true "Dato marcado como procesado" data_id)).
Proof.
  intros Hr Hp.
  unfold mark_as_processed, bind, query_by_id, db_query. simpl.
  rewrite Hr. unfold set_processed. rewrite Hp. simpl.
  unfold db_commit. simpl. rewrite delete_all_nil.
  now rewrite Table_eta.
Qed.

(** Marking a row that is not processed yet: success, and the row is
    afterwards found processed. *)
Lemma mark_unprocessed_row (now : datetime) (data_id : Z) (t : Table)
    (r : WeatherStationData.t) :
  first (filter (id_is data_id) (rows t)) = Some r ->
  WeatherStationData.processed r <> 1 ->
  exists t1,
    mark_as_processed now data_id (open_session t)
    = (open_session t1, Ok (mkAck true "Dato marcado como procesado" data_id))
    /\ first (filter (id_is data_id) (rows t1))
       = Some (WeatherStationData.with_updated_at now
                 (WeatherStationData.with_processed 1 r)).
Proof.
  intros Hr Hp.
  destruct (first_filter_id _ _ _ Hr) as [Hid _].
  unfold mark_as_processed, bind, query_by_id, db_query. simpl.
  rewrite Hr. unfold set_processed.
  destruct (WeatherStationData.processed r =? 1) eqn:E;
    [apply Z.eqb_eq in E; contradiction|].
  simpl. unfold db_commit. simpl. rewrite delete_all_nil.
  eexists. split; [reflexivity|]. simpl.
  subst data_id.
  apply (first_update_row now (WeatherStationData.with_processed 1 r) r).
  exact Hr.
Qed.

(** C9. For every id present in the store, [mark_as_processed] succeeds
    and the row is then found with [processed = 1]; calling it again on
    the now processed row succeeds too and leaves the store as the first
    call left it, so the row still has [processed = 1]. *)
Theorem mark_as_processed_idempotent (now1 now2 : datetime) (data_id : Z)
    (t : Table) (r : WeatherStationData.t) :
  first (filter (id_is data_id) (rows t)) = Some r ->
  exists s1 r1,
    mark_as_processed now1 data_id (open_session t)
    = (s1, Ok (mkAck true "Dato marcado como procesado" data_id))
    /\ get_weather_data_by_id data_id s1 = Ok r1
    /\ WeatherStationData.processed r1 = 1
    /\ mark_as_processed now2 data_id s1
       = (s1, Ok (mkAck true "Dato marcado como procesado" data_id))
    /\ get_weather_data_by_id data_id (fst (mark_as_processed now2 data_id s1))
       = Ok r1.
Proof.
  intro Hr.
  destruct (Z.eq_dec (WeatherStationData.processed r) 1) as [Hp|Hp].
  - exists (open_session t), r.
    pose proof (mark_processed_row now1 data_id t r Hr Hp) as H1.
    pose proof (mark_processed_row now2 data_id t r Hr Hp) as H2.
    assert (Hg : get_weather_data_by_id data_id (open_session t) = Ok r).
    { unfold get_weather_data_by_id, db_query. simpl. now rewrite Hr. }
    rewrite H2. simpl. auto.
  - destruct (mark_unprocessed_row now1 data_id t r Hr Hp) as (t1 & H1 & Hr1).
    set (r1 := WeatherStationData.with_updated_at now1
                 (WeatherStationData.with_processed 1 r)) in *.
    assert (Hp1 : WeatherStationData.processed r1 = 1) by reflexivity.
    pose proof (mark_processed_row now2 data_id t1 r1 Hr1 Hp1) as H2.
    assert (Hg : get_weather_data_by_id data_id (open_session t1) = Ok r1).
    { unfold get_weather_data_by_id, db_query. simpl. now rewrite Hr1. }
    exists (open_session t1), r1. rewrite H2. simpl. auto.
Qed.

(** Witness of [mark_as_processed_idempotent]: row 2 of the sample
    table. *)
Lemma mark_as_processed_idempotent_witness :
  exists s1 r1,
    mark_as_processed (t0 + 3 * hour) 2 (open_session sample_table)
    = (s1, Ok (mkAck true "Dato marcado como procesado" 2))
    /\ get_weather_data_by_id 2 s1 = Ok r1
    /\ WeatherStationData.processed r1 = 1
    /\ mark_as_processed (t0 + 4 * hour) 2 s1
       = (s1, Ok (mkAck true "Dato marcado como procesado" 2))
    /\ get_weather_data_by_id 2 (fst (mark_as_processed (t0 + 4 * hour) 2 s1))
       = Ok r1.
Proof.
  apply (mark_as_processed_idempotent (t0 + 3 * hour) (t0 + 4 * hour) 2
           sample_table
           (reading 2 (t0 + 1 * hour) "sensor_002" (Some 19%float) None None None None)).
  reflexivity.
Defined.

(* ================================================================== *)
(** * The rain-probability heuristic *)
(* ================================================================== *)

Lemma Query_in_range (name : string) (lo hi v : Z) :
  lo <= v <= hi -> Query name lo (Some hi) v = Ok v.
Proof.
  intros [H1 H2]. unfold Query.
  destruct (v <? lo) eqn:E1; [apply Z.ltb_lt in E1; lia|].
  destruct (hi <? v) eqn:E2; [apply Z.ltb_lt in E2; lia|].
  reflexivity.
Qed.

Lemma Query_ok_in_range (name : string) (lo hi v v' : Z) :
  Query name lo (Some hi) v = Ok v' -> v' = v /\ lo <= v <= hi.
Proof.
  unfold Query.
  destruct (v <? lo) eqn:E1; [discriminate|].
  destruct (hi <? v) eqn:E2; [discriminate|].
  apply Z.ltb_ge in E1, E2. intro H. inversion H. lia.
Qed.

(** Each rule scores a non-negative number of points, 90 at most in
    total. *)
Lemma points_bounds (readings : list WeatherStationData.t) :
  0 <= humidity_points readings + pressure_points readings
       + precipitation_points readings <= 90.
Proof.
  unfold humidity_points, pressure_points, precipitation_points.
  destruct (90 <? mean_humidity readings)%float;
    [|destruct (75 <? mean_humidity readings)%float];
    (destruct (endpoint_pressure_change readings) as [c|];
       [destruct (c <? -1.5)%float; [|destruct (c <? -0.5)%float]|]);
    destruct (0.1 <? precipitation_total readings)%float; lia.
Qed.

(** The report of the handler on a window of at least two readings. *)
Lemma get_rain_probability_report (now : datetime) (source_name : string)
    (hours : Z) (db : Session) :
  1 <= hours <= 48 ->
  (2 <= List.length
          (recent_data_query source_name (now - timedelta_hours hours)%Z db))%nat ->
  get_rain_probability now source_name hours db
  = Ok (let recent :=
          recent_data_query source_name (now - timedelta_hours hours) db in
        mkRainReport source_name hours
          (humidity_points recent + pressure_points recent
           + precipitation_points recent)
          (Z.of_nat (List.length recent))
          (round2 (mean_humidity recent))
          (round2 (match endpoint_pressure_change recent with
                   | Some change => change
                   | None => 0%float
                   end))
          (round2 (precipitation_total recent))).
Proof.
  intros Hh Hlen. unfold get_rain_probability.
  rewrite (Query_in_range "hours" 1 48 hours Hh).
  cbv zeta.
  generalize dependent (recent_data_query source_name (now - timedelta_hours hours) db).
  intros recent Hlen.
  destruct (Z.of_nat (List.length recent) <? 2) eqn:E;
    [apply Z.ltb_lt in E; lia|].
  destruct recent as [|d0 rest]; [simpl in Hlen; lia|].
  unfold humidity_points, pressure_points, precipitation_points,
    endpoint_pressure_change, mean_humidity, precipitation_total.
  set (hs := non_null WeatherStationData.humidity (d0 :: rest)).
  set (total := py_sum (non_null WeatherStationData.real_precipitation (d0 :: rest))).
  set (dl := last (d0 :: rest) d0).
  assert (Hmean :
    match hs with [] => 0%float | _ :: _ => (py_sum hs / float_of_len hs)%float end
    = match hs with [] => 0%float | h :: hs' => (py_sum (h :: hs') / float_of_len (h :: hs'))%float end).
  { now destruct hs. }
  rewrite Hmean.
  set (mean := match hs with
               | [] => 0%float
               | h :: hs' => (py_sum (h :: hs') / float_of_len (h :: hs'))%float
               end).
  destruct (WeatherStationData.presure d0) as [fp|];
    [destruct (WeatherStationData.presure dl) as [lp|]|];
    destruct (90 <? mean)%float; try destruct (75 <? mean)%float;
    try destruct (lp - fp <? -1.5)%float; try destruct (lp - fp <? -0.5)%float;
    destruct (0.1 <? total)%float; reflexivity.
Qed.

(** The handler on a window of fewer than two readings. *)
Lemma get_rain_probability_not_found (now : datetime) (source_name : string)
    (hours : Z) (db : Session) :
  1 <= hours <= 48 ->
  (List.length
     (recent_data_query source_name (now - timedelta_hours hours)%Z db) < 2)%nat ->
  get_rain_probability now source_name hours db
  = Raise (HTTPException 404
             ("No hay suficientes datos para '" ++ source_name
              ++ "' en las últimas " ++ str_of_Z hours
              ++ " horas para hacer una predicción.")).
Proof.
  intros Hh Hlen. unfold get_rain_probability.
  rewrite (Query_in_range "hours" 1 48 hours Hh). cbv zeta.
  destruct (Z.of_nat (List.length
              (recent_data_query source_name (now - timedelta_hours hours) db)) <? 2)
    eqn:E; [reflexivity|].
  apply Z.ltb_ge in E. lia.
Qed.

(** C5. For a window of [hours] in [1, 48]: the readings analysed are the
    rows of the source inside the window, in ascending [station_time]
    order; with fewer than two of them the handler answers 404; otherwise
    it answers a report whose score is the sum of the points of the three
    rules (humidity 30/15, pressure change of the end points 35/15 and 0
    when an end point has no pressure, real precipitation 25) and whose
    pressure change is the rounded end-point difference, [0.0] when an
    end point has no pressure. On the two readings with humidity 95 and
    95, pressure 1010 then 1008 and real precipitation 0.1 and 0.1 the
    rules score 30, 35 and 25 and the reported score is 90. *)
Theorem rain_probability_is_sum_of_rules (now : datetime) (source_name : string)
    (hours : Z) (db : Session) :
  1 <= hours <= 48 ->
  Permutation
    (recent_data_query source_name (now - timedelta_hours hours) db)
    (filter (in_window source_name (now - timedelta_hours hours)) (db_query db))
  /\ asc_by_station_time
       (recent_data_query source_name (now - timedelta_hours hours) db)
  /\ ((List.length
         (recent_data_query source_name (now - timedelta_hours hours)%Z db) < 2)%nat ->
      exists detail,
        get_rain_probability now source_name hours db
        = Raise (HTTPException 404 detail))
  /\ ((2 <= List.length
              (recent_data_query source_name (now - timedelta_hours hours)%Z db))%nat ->
      exists report,
        get_rain_probability now source_name hours db = Ok report
        /\ rain_probability report
           = humidity_points
               (recent_data_query source_name (now - timedelta_hours hours) db)
             + pressure_points
                 (recent_data_query source_name (now - timedelta_hours hours) db)
             + precipitation_points
                 (recent_data_query source_name (now - timedelta_hours hours) db)
        /\ debug_pressure_change report
           = round2
               (match endpoint_pressure_change
                        (recent_data_query source_name
                           (now - timedelta_hours hours) db) with
                | Some change => change
                | None => 0%float
                end)
        /\ (endpoint_pressure_change
              (recent_data_query source_name (now - timedelta_hours hours) db)
            = None ->
            pressure_points
              (recent_data_query source_name (now - timedelta_hours hours) db) = 0
            /\ debug_pressure_change report = 0%float))
  /\ humidity_points (rows two_readings_table) = 30
  /\ pressure_points (rows two_readings_table) = 35
  /\ precipitation_points (rows two_readings_table) = 25
  /\ get_rain_probability (t0 + 2 * hour) "sensor_001" 6
       (open_session two_readings_table)
     = Ok (mkRainReport "sensor_001" 6 90 2 95%float (-2)%float 0.2%float).
Proof.
  intros Hh.
  split; [apply Permutation_sym, sort_by_perm|].
  split; [apply order_by_asc_sorted|].
  split.
  { intros Hlen. eexists.
    now apply get_rain_probability_not_found. }
  split.
  { intros Hlen. eexists.
    split; [now apply get_rain_probability_report|].
    cbv zeta. cbn [rain_probability debug_pressure_change].
    split; [reflexivity|]. split; [reflexivity|].
    intros Hnone. unfold pressure_points. rewrite Hnone.
    split; [reflexivity|]. vm_compute. reflexivity. }
  repeat split; vm_compute; reflexivity.
Qed.

(** Witness of [rain_probability_is_sum_of_rules]: the two readings,
    three hours after the first. *)
Lemma rain_probability_is_sum_of_rules_witness :
  (1 <= 6 <= 48)
  /\ exists report,
       get_rain_probability (t0 + 3 * hour) "sensor_001" 6
         (open_session two_readings_table) = Ok report
       /\ rain_probability report = 90.
Proof.
  split; [lia|].
  destruct (rain_probability_is_sum_of_rules (t0 + 3 * hour) "sensor_001" 6
              (open_session two_readings_table))
    as (_ & _ & _ & H & _); [lia|].
  destruct H as (report & Hr & Hp & _); [vm_compute; lia|].
  exists report. split; [exact Hr|].
  rewrite Hp. vm_compute. reflexivity.
Defined.

(** C7. Every score the handler returns is the sum of the three rules
    capped at 100, and lies between 0 and 100: no rule scores a negative
    number, and the three maxima add up to 90. *)
Theorem rain_probability_in_range (now : datetime) (source_name : string)
    (hours : Z) (db : Session) (report : RainReport) :
  get_rain_probability now source_name hours db = Ok report ->
  rain_probability report
  = Z.min (humidity_points
             (recent_data_query source_name (now - timedelta_hours hours) db)
           + pressure_points
               (recent_data_query source_name (now - timedelta_hours hours) db)
           + precipitation_points
               (recent_data_query source_name (now - timedelta_hours hours) db))
          100
  /\ 0 <= rain_probability report <= 100.
Proof.
  intro H.
  assert (Hh : 1 <= hours <= 48).
  { unfold get_rain_probability in H.
    destruct (Query "hours" 1 (Some 48) hours) eqn:Q; [|discriminate].
    now apply Query_ok_in_range in Q. }
  destruct (le_lt_dec 2 (List.length
              (recent_data_query source_name (now - timedelta_hours hours) db)))
    as [Hlen|Hlen].
  - rewrite (get_rain_probability_report now source_name hours db Hh Hlen) in H.
    inversion H; subst; clear H. cbv zeta. cbn [rain_probability].
    pose proof (points_bounds
      (recent_data_query source_name (now - timedelta_hours hours) db)).
    lia.
  - rewrite (get_rain_probability_not_found now source_name hours db Hh Hlen) in H.
    discriminate.
Qed.

(** Witness of [rain_probability_in_range]: the three rules at their
    maxima. *)
Lemma rain_probability_in_range_witness :
  get_rain_probability (t0 + 2 * hour) "sensor_001" 6
    (open_session two_readings_table)
  = Ok (mkRainReport "sensor_001" 6 90 2 95%float (-2)%float 0.2%float)
  /\ 0 <= rain_probability
            (mkRainReport "sensor_001" 6 90 2 95%float (-2)%float 0.2%float)
       <= 100.
Proof.
  split; [vm_compute; reflexivity|].
  apply (rain_probability_in_range (t0 + 2 * hour) "sensor_001" 6
           (open_session two_readings_table)
           (mkRainReport "sensor_001" 6 90 2 95%float (-2)%float 0.2%float)).
  vm_compute. reflexivity.
Defined.

(* ================================================================== *)
(** * Windowed statistics *)
(* ================================================================== *)

(** The values an aggregate ranges over are those of the rows that have
    the column. *)
Lemma non_null_length {A B : Type} (col : A -> option B) (rs : list A) :
  List.length (non_null col rs)
  = List.length (filter (fun r => match col r with Some _ => true | None => false end) rs).
Proof.
  induction rs as [|r rs IH]; simpl; [reflexivity|].
  destruct (col r); simpl; now rewrite IH.
Qed.

Lemma non_null_nil_iff {A B : Type} (col : A -> option B) (rs : list A) :
  non_null col rs = [] <-> forall r, In r rs -> col r = None.
Proof.
  induction rs as [|r rs IH]; simpl.
  - split; [intros _ r []|reflexivity].
  - destruct (col r) eqn:E.
    + split; [discriminate|]. intros H.
      specialize (H r (or_introl eq_refl)). congruence.
    + rewrite IH. split.
      * intros H x [<-|Hx]; auto.
      * intros H x Hx. apply H. now right.
Qed.

(** An aggregate of the query is NULL exactly when no row of the window
    has the column. *)
Lemma sql_avg_none_iff {A : Type} (col : A -> option float) (rs : list A) :
  sql_avg (non_null col rs) = None <-> forall r, In r rs -> col r = None.
Proof.
  rewrite <- non_null_nil_iff. unfold sql_avg.
  destruct (non_null col rs); split; congruence || discriminate.
Qed.

Lemma sql_max_none_iff {A : Type} (col : A -> option float) (rs : list A) :
  sql_max (non_null col rs) = None <-> forall r, In r rs -> col r = None.
Proof.
  rewrite <- non_null_nil_iff. unfold sql_max.
  destruct (non_null col rs); split; congruence || discriminate.
Qed.

Lemma sql_min_none_iff {A : Type} (col : A -> option float) (rs : list A) :
  sql_min (non_null col rs) = None <-> forall r, In r rs -> col r = None.
Proof.
  rewrite <- non_null_nil_iff. unfold sql_min.
  destruct (non_null col rs); split; congruence || discriminate.
Qed.

(** The average divides the sum of the present values by their number. *)
Lemma sql_avg_some (xs : list float) (x : float) :
  sql_avg xs = Some x -> x = (py_sum xs / float_of_len xs)%float /\ xs <> [].
Proof.
  unfold sql_avg. destruct xs; [discriminate|].
  intro H. inversion H. split; [reflexivity|discriminate].
Qed.

(** What the report shows for one aggregate: nothing when the aggregate is
    NULL, and nothing either when it is zero. *)
Lemma round2_if_none_iff (v : option float) :
  round2_if v = None <-> v = None \/ exists x, v = Some x /\ float_bool x = false.
Proof.
  unfold round2_if, optional_float_bool. destruct v as [x|]; simpl.
  - destruct (float_bool x) eqn:E; simpl; split.
    + discriminate.
    + intros [H|(y & H & Hy)]; [discriminate|]. inversion H; subst. congruence.
    + intros _. right. now exists x.
    + reflexivity.
  - split; [now left|reflexivity].
Qed.

(** The handler answers 404 exactly when no row of the source falls in
    the window. *)
Lemma get_statistics_not_found_iff (now : datetime) (source_name : string)
    (hours : Z) (db : Session) :
  1 <= hours <= 720 ->
  (exists detail,
     get_statistics_by_source now source_name hours db
     = Raise (HTTPException 404 detail))
  <-> filter (in_window source_name (now - timedelta_hours hours)) (db_query db) = [].
Proof.
  intros Hh. unfold get_statistics_by_source.
  rewrite (Query_in_range "hours" 1 720 hours Hh). cbv zeta.
  unfold stats_query, sql_count. cbn [total_records].
  destruct (filter (in_window source_name (now - timedelta_hours hours)) (db_query db))
    as [|r q]; simpl.
  - split; [reflexivity|]. intros _. eexists. reflexivity.
  - split; [|discriminate]. intros [detail H].
    destruct (Z.pos (Pos.of_succ_nat (List.length q)) =? 0) eqn:E;
      [apply Z.eqb_eq in E; lia|discriminate].
Qed.

(** C2 (the code departs from it). With one reading in the window whose
    temperature is 0.0 and whose wind speed is 0.0, the report is found
    (one record), yet the temperature average, maximum and minimum and
    the wind-speed average and maximum are all null although the reading
    has both fields; the humidity average, 55, is reported. *)
Theorem statistics_zero_reported_as_null :
  get_statistics_by_source (t0 + hour) "sensor_001" 24
    (open_session freezing_table)
  = Ok (mkStatsReport "sensor_001" 24 None None None (Some 55%float) None None 1)
  /\ sql_avg (non_null WeatherStationData.temperature (rows freezing_table))
     = Some 0%float
  /\ sql_max (non_null WeatherStationData.wind_speed (rows freezing_table))
     = Some 0%float.
Proof.
  repeat split; vm_compute; reflexivity.
Qed.

(* ================================================================== *)
(** * The latest reading of every source *)
(* ================================================================== *)

Lemma fold_left_max_spec (ids : list Z) (i : Z) :
  (fold_left Z.max ids i = i \/ In (fold_left Z.max ids i) ids)
  /\ i <= fold_left Z.max ids i
  /\ forall j, In j ids -> j <= fold_left Z.max ids i.
Proof.
  revert i. induction ids as [|k ids IH]; intro i; simpl.
  - repeat split; auto; try lia.
  - destruct (IH (Z.max i k)) as (Hin & Hle & Hall).
    split; [|split].
    + destruct Hin as [Heq|Hin]; [|now right; right].
      rewrite Heq. destruct (Z.max_spec i k) as [[_ ->]|[_ ->]]; auto.
    + lia.
    + intros j [<-|Hj]; [lia|auto].
Qed.

(** [max_id] of a non-empty group is the id of one of its rows and bounds
    the ids of all of them. *)
Lemma max_id_spec (rs : list WeatherStationData.t) :
  rs <> [] ->
  (exists r, In r rs /\ WeatherStationData.id r = max_id rs)
  /\ forall r, In r rs -> WeatherStationData.id r <= max_id rs.
Proof.
  destruct rs as [|x rs]; [congruence|]. intros _.
  unfold max_id. cbn [map].
  destruct (fold_left_max_spec (map WeatherStationData.id rs)
              (WeatherStationData.id x)) as (Hin & Hle & Hall).
  split.
  - destruct Hin as [Heq|Hin].
    + exists x. split; [now left|now symmetry].
    + apply in_map_iff in Hin. destruct Hin as (r & Hr & Hin).
      exists r. split; [now right|exact Hr].
  - intros r [<-|Hr]; [exact Hle|].
    apply Hall. now apply in_map.
Qed.

Lemma source_is_true (s : string) (r : WeatherStationData.t) :
  source_is s r = true <-> WeatherStationData.source r = s.
Proof. unfold source_is. apply String.eqb_eq. Qed.

Lemma group_by_source_in (rs : list WeatherStationData.t) (s : string) :
  In s (group_by_source rs)
  <-> exists r, In r rs /\ WeatherStationData.source r = s.
Proof.
  induction rs as [|x rs IH]; simpl.
  - split; [intros []|intros (r & [] & _)].
  - rewrite filter_In, IH. split.
    + intros [<-|[(r & Hr & Hs) _]].
      * exists x. auto.
      * exists r. auto.
    + intros (r & [<-|Hr] & Hs); [now left|].
      destruct (String.eqb_spec s (WeatherStationData.source x)) as [->|Hne].
      * now left.
      * right. split; [now exists r|]. reflexivity.
Qed.

Lemma group_by_source_NoDup (rs : list WeatherStationData.t) :
  NoDup (group_by_source rs).
Proof.
  induction rs as [|x rs IH]; simpl; constructor.
  - rewrite filter_In. intros [_ H]. now rewrite String.eqb_refl in H.
  - now apply NoDup_filter.
Qed.

Lemma NoDup_map_injective {A B : Type} (f : A -> B) (l : list A) (x y : A) :
  NoDup (map f l) -> In x l -> In y l -> f x = f y -> x = y.
Proof.
  induction l as [|a l IH]; simpl; [intros _ []|].
  intros Hnd Hx Hy Hf. inversion Hnd as [|? ? Hnotin Hnd']; subst.
  destruct Hx as [<-|Hx], Hy as [<-|Hy]; auto.
  - exfalso. apply Hnotin. rewrite Hf. now apply in_map.
  - exfalso. apply Hnotin. rewrite <- Hf. now apply in_map.
Qed.

(** In a duplicate-free list, a predicate that can only hold of [x]
    selects [x] or nothing. *)
Lemma filter_unique {A : Type} (p : A -> bool) (l : list A) (x : A) :
  NoDup l -> In x l ->
  (forall y, In y l -> p y = true -> y = x) ->
  filter p l = if p x then [x] else [].
Proof.
  induction l as [|a l IH]; simpl; [intros _ []|].
  intros Hnd Hx Hp. inversion Hnd as [|? ? Hnotin Hnd']; subst.
  destruct Hx as [->|Hx].
  - assert (Hnone : filter p l = []).
    { apply filter_none. intros y Hy.
      destruct (p y) eqn:E; [|reflexivity].
      exfalso. apply Hnotin. rewrite <- (Hp y (or_intror Hy) E). exact Hy. }
    rewrite Hnone. now destruct (p x).
  - destruct (p a) eqn:E.
    + exfalso. apply Hnotin. rewrite (Hp a (or_introl eq_refl) E). exact Hx.
    + apply IH; auto.
Qed.

Lemma flat_map_filter {A : Type} (f : A -> list A) (p : A -> bool) (l : list A) :
  (forall x, In x l -> f x = if p x then [x] else []) ->
  flat_map f l = filter p l.
Proof.
  induction l as [|a l IH]; simpl; [reflexivity|].
  intros H. rewrite (H a (or_introl eq_refl)), IH by (intros; apply H; now right).
  now destruct (p a).
Qed.

Lemma filter_map_comm {A B : Type} (f : A -> B) (p : B -> bool) (l : list A) :
  filter p (map f l) = map f (filter (fun x => p (f x)) l).
Proof.
  induction l as [|a l IH]; simpl; [reflexivity|].
  rewrite IH. now destruct (p (f a)).
Qed.

(** With [id] a key, the join keeps exactly the rows that are the latest
    of their source, each once. *)
Lemma join_on_max_id_latest (rs : list WeatherStationData.t) :
  NoDup (map WeatherStationData.id rs) ->
  join_on_max_id rs (latest_subquery rs) = filter (is_latest rs) rs.
Proof.
  intros Hkey. unfold join_on_max_id. apply flat_map_filter.
  intros r Hr. unfold latest_subquery. rewrite filter_map_comm. cbn [snd].
  rewrite (filter_unique _ (group_by_source rs) (WeatherStationData.source r)).
  - fold (is_latest rs r). now destruct (is_latest rs r).
  - apply group_by_source_NoDup.
  - apply group_by_source_in. now exists r.
  - intros s Hs Hmatch. apply Z.eqb_eq in Hmatch.
    apply group_by_source_in in Hs. destruct Hs as (r0 & Hr0 & Hs0).
    destruct (max_id_spec (filter (source_is s) rs)) as [(r1 & Hr1 & Hid1) _].
    { intro Hnil. assert (Hin : In r0 (filter (source_is s) rs)).
      { apply filter_In. split; [exact Hr0|now apply source_is_true]. }
      rewrite Hnil in Hin. exact Hin. }
    apply filter_In in Hr1. destruct Hr1 as [Hr1 Hs1].
    apply source_is_true in Hs1.
    assert (r = r1).
    { apply (NoDup_map_injective WeatherStationData.id rs); auto. congruence. }
    congruence.
Qed.

Lemma is_latest_spec (rs : list WeatherStationData.t) (l : WeatherStationData.t) :
  In l rs -> is_latest rs l = true ->
  forall r, In r rs ->
    WeatherStationData.source r = WeatherStationData.source l ->
    WeatherStationData.id r <= WeatherStationData.id l.
Proof.
  intros Hl Hlatest r Hr Hs. unfold is_latest in Hlatest.
  apply Z.eqb_eq in Hlatest. rewrite Hlatest.
  apply max_id_spec.
  - intro Hnil. assert (Hin : In l (filter (source_is (WeatherStationData.source l)) rs)).
    { apply filter_In. split; [exact Hl|now apply source_is_true]. }
    rewrite Hnil in Hin. exact Hin.
  - apply filter_In. split; [exact Hr|now apply source_is_true].
Qed.

(** Every source that occurs has a latest row. *)
Lemma latest_exists (rs : list WeatherStationData.t) (r : WeatherStationData.t) :
  In r rs ->
  exists l, In l (filter (is_latest rs) rs)
            /\ WeatherStationData.source l = WeatherStationData.source r.
Proof.
  intros Hr.
  destruct (max_id_spec (filter (source_is (WeatherStationData.source r)) rs))
    as [(l & Hl & Hid) _].
  { intro Hnil.
    assert (Hin : In r (filter (source_is (WeatherStationData.source r)) rs)).
    { apply filter_In. split; [exact Hr|now apply source_is_true]. }
    rewrite Hnil in Hin. exact Hin. }
  apply filter_In in Hl. destruct Hl as [Hl Hs]. apply source_is_true in Hs.
  exists l. split; [|exact Hs].
  apply filter_In. split; [exact Hl|].
  unfold is_latest. rewrite Hs. now apply Z.eqb_eq.
Qed.

Lemma filter_keeps_key {Row Key : Type} (key : Row -> Key) (keep : Row -> bool)
    (rs : list Row) (Hkey : NoDup (map key rs)) :
  NoDup (map key (filter keep rs)).
Proof.
  revert Hkey. induction rs as [|x rs IH]; simpl; intros Hnd; [constructor|].
  inversion Hnd as [|? ? Hnotin Hnd']; subst.
  destruct (keep x); simpl; [constructor|]; auto.
  intro Hin. apply Hnotin. apply in_map_iff in Hin.
  destruct Hin as (y & Hy & Hin). apply filter_In in Hin.
  rewrite <- Hy. apply in_map. tauto.
Qed.

(** No two latest rows share a source. *)
Lemma latest_sources_NoDup (rs : list WeatherStationData.t) :
  NoDup (map WeatherStationData.id rs) ->
  NoDup (map WeatherStationData.source (filter (is_latest rs) rs)).
Proof.
  intros Hkey.
  assert (Hsub : forall q,
    (forall x, In x q -> In x rs /\ is_latest rs x = true) ->
    NoDup (map WeatherStationData.id q) ->
    NoDup (map WeatherStationData.source q)).
  { induction q as [|a q IH]; simpl; intros Hq Hnd; constructor.
    - intros Hin. apply in_map_iff in Hin. destruct Hin as (b & Hsb & Hb).
      inversion Hnd as [|? ? Hnotin _]; subst. apply Hnotin.
      destruct (Hq a (or_introl eq_refl)) as [Ha La].
      destruct (Hq b (or_intror Hb)) as [Hb' Lb].
      unfold is_latest in La, Lb. apply Z.eqb_eq in La, Lb.
      rewrite Hsb in Lb. rewrite La, <- Lb. now apply in_map.
    - inversion Hnd; subst. apply IH; auto. }
  apply Hsub.
  - intros x Hx. now apply filter_In in Hx.
  - now apply filter_keeps_key.
Qed.

(** ** The key is an invariant of the table *)

Lemma insert_all_key_ok (now : datetime) (objs : list WeatherStationData.t)
    (t : Table) :
  key_ok t -> key_ok (insert_all now objs t).
Proof.
  revert t. induction objs as [|o objs IH]; intros t [Hnd Hlt]; simpl.
  - now split.
  - apply IH. split; simpl.
    + rewrite map_app. simpl. apply NoDup_app.
      * exact Hnd.
      * repeat constructor. intros [].
      * intros i Hi [<-|[]]. apply in_map_iff in Hi.
        destruct Hi as (r & Hr & Hin).
        rewrite Forall_forall in Hlt. specialize (Hlt r Hin). lia.
    + apply Forall_app. split.
      * eapply Forall_impl; [|exact Hlt]. simpl. intros; lia.
      * repeat constructor. simpl. lia.
Qed.

Lemma update_all_ids (now : datetime) (objs rs : list WeatherStationData.t) :
  map WeatherStationData.id (update_all now objs rs)
  = map WeatherStationData.id rs.
Proof.
  unfold update_all. revert rs.
  induction objs as [|o objs IH]; intro rs; simpl; [reflexivity|].
  rewrite IH. unfold update_row. rewrite map_map. apply map_ext_in.
  intros r _. destruct (WeatherStationData.id r =? WeatherStationData.id o) eqn:E;
    [|reflexivity].
  apply Z.eqb_eq in E. now rewrite E.
Qed.

(** A commit keeps the key, whatever the unit of work holds. *)
Lemma db_commit_key_ok (now : datetime) (s s' : Session) (res : result unit) :
  key_ok (table s) -> db_commit now s = (s', res) -> key_ok (table s').
Proof.
  intros Hok. unfold db_commit.
  destruct (forallb fits_columns (new s)); intro H; inversion H; subst; clear H;
    [|exact Hok].
  destruct (insert_all_key_ok now (new s) (table s) Hok) as [Hnd Hlt].
  split; simpl.
  - unfold delete_all. apply filter_keeps_key. now rewrite update_all_ids.
  - unfold delete_all. apply Forall_forall. intros r Hr.
    apply filter_In in Hr. destruct Hr as [Hr _].
    assert (Hid : In (WeatherStationData.id r)
                     (map WeatherStationData.id (rows (insert_all now (new s) (table s))))).
    { rewrite <- (update_all_ids now (dirty s)). now apply in_map. }
    apply in_map_iff in Hid. destruct Hid as (r0 & Hid & Hr0).
    rewrite Forall_forall in Hlt. rewrite <- Hid. now apply Hlt.
Qed.

(** C4. In every store whose [id] is a key (it is the primary key),
    [get_latest_from_all_sources] returns exactly one row per distinct
    source of the store: no two returned rows share a source, every source
    of the store is the source of a returned row, the number of returned
    rows is the number of distinct sources, and each returned row is a
    row of the store whose [id] is the greatest among the rows of its
    source (its [station_time] plays no part). *)
Theorem latest_one_row_per_source (db : Session) :
  NoDup (map WeatherStationData.id (db_query db)) ->
  NoDup (map WeatherStationData.source (get_latest_from_all_sources db))
  /\ (forall r, In r (db_query db) ->
        exists l, In l (get_latest_from_all_sources db)
                  /\ WeatherStationData.source l = WeatherStationData.source r)
  /\ (exists sources,
        NoDup sources
        /\ (forall s, In s sources
                      <-> exists r, In r (db_query db)
                                    /\ WeatherStationData.source r = s)
        /\ List.length (get_latest_from_all_sources db) = List.length sources)
  /\ (forall l, In l (get_latest_from_all_sources db) ->
        In l (db_query db)
        /\ forall r, In r (db_query db) ->
             WeatherStationData.source r = WeatherStationData.source l ->
             WeatherStationData.id r <= WeatherStationData.id l).
Proof.
  intros Hkey. unfold get_latest_from_all_sources.
  rewrite (join_on_max_id_latest _ Hkey).
  set (rs := db_query db) in *.
  assert (Hnd := latest_sources_NoDup rs Hkey).
  split; [exact Hnd|].
  split; [intros r Hr; now apply latest_exists|].
  split.
  - exists (group_by_source rs).
    split; [apply group_by_source_NoDup|].
    split; [intro s; apply group_by_source_in|].
    rewrite <- (length_map WeatherStationData.source).
    apply Permutation_length, NoDup_Permutation.
    + exact Hnd.
    + apply group_by_source_NoDup.
    + intro s. rewrite group_by_source_in, in_map_iff. split.
      * intros (l & Hs & Hl). apply filter_In in Hl. exists l. tauto.
      * intros (r & Hr & Hs). destruct (latest_exists rs r Hr) as (l & Hl & Hsl).
        exists l. split; [congruence|exact Hl].
  - intros l Hl. apply filter_In in Hl. destruct Hl as [Hl Hlatest].
    split; [exact Hl|]. now apply is_latest_spec.
Qed.

(** Witness of [latest_one_row_per_source]: in the sample table the
    latest row of [sensor_001] is row 3, whose [station_time] is older
    than that of row 1. *)
Lemma latest_one_row_per_source_witness :
  NoDup (map WeatherStationData.id (db_query sample_db))
  /\ map WeatherStationData.id (get_latest_from_all_sources sample_db) = [2; 3]
  /\ NoDup (map WeatherStationData.source (get_latest_from_all_sources sample_db)).
Proof.
  assert (Hkey : NoDup (map WeatherStationData.id (db_query sample_db))).
  { cbn. repeat constructor; cbn; intuition discriminate. }
  split; [exact Hkey|].
  split; [vm_compute; reflexivity|].
  apply (latest_one_row_per_source sample_db Hkey).
Defined.

(* ================================================================== *)
(** * Lookup and deletion *)
(* ================================================================== *)

Lemma first_filter_none {A : Type} (p : A -> bool) (l : list A) :
  first (filter p l) = None <-> forall x, In x l -> p x = false.
Proof.
  induction l as [|a l IH]; simpl.
  - split; [intros _ x []|reflexivity].
  - destruct (p a) eqn:E; simpl.
    + split; [discriminate|]. intros H.
      rewrite (H a (or_introl eq_refl)) in E. discriminate.
    + rewrite IH. split.
      * intros H x [<-|Hx]; auto.
      * intros H x Hx. apply H. now right.
Qed.

(** With [id] a key, the lookup by the id of a row returns that row. *)
Lemma first_filter_key (rs : list WeatherStationData.t)
    (r : WeatherStationData.t) :
  NoDup (map WeatherStationData.id rs) -> In r rs ->
  first (filter (id_is (WeatherStationData.id r)) rs) = Some r.
Proof.
  intros Hkey Hr.
  destruct (first (filter (id_is (WeatherStationData.id r)) rs)) as [x|] eqn:E.
  - destruct (first_filter_id _ _ _ E) as [Hid Hx].
    f_equal. now apply (NoDup_map_injective WeatherStationData.id rs).
  - rewrite first_filter_none in E. specialize (E r Hr).
    unfold id_is in E. now rewrite Z.eqb_refl in E.
Qed.

(** X7. The lookup by id answers with a row of the table that has the
    requested id, and answers 404 exactly when no row of the table has
    it; it raises nothing else. *)
Theorem get_by_id_sound_and_complete (data_id : Z) (db : Session) :
  (forall r, get_weather_data_by_id data_id db = Ok r ->
     WeatherStationData.id r = data_id /\ In r (db_query db))
  /\ ((forall r, In r (db_query db) -> WeatherStationData.id r <> data_id)
      <-> get_weather_data_by_id data_id db
          = Raise (HTTPException 404
                     ("No se encontraron datos con ID " ++ str_of_Z data_id)))
  /\ (forall e, get_weather_data_by_id data_id db = Raise e ->
        e = HTTPException 404
              ("No se encontraron datos con ID " ++ str_of_Z data_id)).
Proof.
  unfold get_weather_data_by_id.
  destruct (first (filter (id_is data_id) (db_query db))) as [x|] eqn:E.
  - split; [|split].
    + intros r H. inversion H; subst. now apply first_filter_id.
    + split; [|discriminate]. intros Hnone.
      destruct (first_filter_id _ _ _ E) as [Hid Hx].
      now destruct (Hnone x Hx).
    + discriminate.
  - split; [discriminate|]. split.
    + split; [reflexivity|]. intros _ r Hr Hid.
      rewrite first_filter_none in E. specialize (E r Hr).
      unfold id_is in E. apply Z.eqb_neq in E. contradiction.
    + intros e H. now inversion H.
Qed.

(** The table after the deletion of a row that is found. *)
Lemma delete_weather_data_found (now : datetime) (data_id : Z) (t : Table)
    (r : WeatherStationData.t) :
  first (filter (id_is data_id) (rows t)) = Some r ->
  delete_weather_data now data_id (open_session t)
  = (open_session
       (mkTable (filter (fun x => negb (id_is data_id x)) (rows t)) (next_id t)),
     Ok (mkAck true "Dato eliminado correctamente" data_id)).
Proof.
  intros Hr. destruct (first_filter_id _ _ _ Hr) as [Hid _].
  assert (Hdel : delete_all [WeatherStationData.id r] (rows t)
                 = filter (fun x => negb (id_is data_id x)) (rows t)).
  { unfold delete_all. apply filter_ext. intros x.
    cbn [existsb]. unfold id_is. now rewrite Hid, orb_false_r. }
  unfold delete_weather_data, bind, query_by_id, db_query.
  cbn [table open_session]. rewrite Hr.
  unfold db_delete, db_commit, ret, update_all, open_session.
  cbn [new dirty deleted table forallb insert_all fold_left app].
  now rewrite Hdel.
Qed.

(** X1. Deleting an id that is in the store succeeds and echoes the id;
    afterwards the lookup by that id and a second deletion both answer
    404, and the id sequence has not moved back, so the id is not handed
    out again. *)
Theorem delete_then_lookup_not_found (now now' : datetime) (data_id : Z)
    (t : Table) (r : WeatherStationData.t) :
  first (filter (id_is data_id) (rows t)) = Some r ->
  exists s1,
    delete_weather_data now data_id (open_session t)
    = (s1, Ok (mkAck true "Dato eliminado correctamente" data_id))
    /\ get_weather_data_by_id data_id s1
       = Raise (HTTPException 404
                  ("No se encontraron datos con ID " ++ str_of_Z data_id))
    /\ delete_weather_data now' data_id s1
       = (s1, Raise (HTTPException 404 "Dato no encontrado"))
    /\ next_id (table s1) = next_id t.
Proof.
  intros Hr. eexists. split; [now apply (delete_weather_data_found now data_id t r)|].
  assert (Hnone : filter (id_is data_id)
                    (filter (fun x => negb (id_is data_id x)) (rows t)) = []).
  { rewrite filter_filter. apply filter_none. intros x _.
    now destruct (id_is data_id x). }
  split; [|split; [|reflexivity]].
  - unfold get_weather_data_by_id, db_query. simpl. now rewrite Hnone.
  - unfold delete_weather_data, bind, query_by_id, db_query. simpl.
    now rewrite Hnone.
Qed.

(** Witness of [delete_then_lookup_not_found]: row 3 of the sample
    table. *)
Lemma delete_then_lookup_not_found_witness :
  exists s1,
    delete_weather_data (t0 + 3 * hour) 3 (open_session sample_table)
    = (s1, Ok (mkAck true "Dato eliminado correctamente" 3))
    /\ get_weather_data_by_id 3 s1
       = Raise (HTTPException 404 ("No se encontraron datos con ID " ++ str_of_Z 3))
    /\ delete_weather_data (t0 + 4 * hour) 3 s1
       = (s1, Raise (HTTPException 404 "Dato no encontrado"))
    /\ next_id (table s1) = next_id sample_table.
Proof.
  apply (delete_then_lookup_not_found (t0 + 3 * hour) (t0 + 4 * hour) 3 sample_table
           (reading 3 t0 "sensor_001" None (Some 70%float) None None None)).
  reflexivity.
Defined.

(** X2. Deleting one id leaves every other id as it was: the lookup by
    any other id answers after the deletion what it answered before, and
    no row appears that was not there. *)
Theorem delete_keeps_other_rows (now : datetime) (data_id other : Z)
    (t : Table) (r : WeatherStationData.t) :
  first (filter (id_is data_id) (rows t)) = Some r ->
  other <> data_id ->
  get_weather_data_by_id other
    (fst (delete_weather_data now data_id (open_session t)))
  = get_weather_data_by_id other (open_session t)
  /\ forall x,
       In x (db_query (fst (delete_weather_data now data_id (open_session t)))) ->
       In x (rows t) /\ WeatherStationData.id x <> data_id.
Proof.
  intros Hr Hne. rewrite (delete_weather_data_found now data_id t r Hr).
  split.
  - unfold get_weather_data_by_id, db_query. simpl.
    rewrite filter_filter.
    rewrite (filter_ext _ (id_is other)); [reflexivity|].
    intros x. unfold id_is.
    destruct (WeatherStationData.id x =? other) eqn:E1;
      [|now rewrite andb_false_r].
    apply Z.eqb_eq in E1.
    destruct (WeatherStationData.id x =? data_id) eqn:E2; [|reflexivity].
    apply Z.eqb_eq in E2. congruence.
  - intros x Hx. unfold db_query in Hx. simpl in Hx.
    apply filter_In in Hx. destruct Hx as [Hx Hid]. split; [exact Hx|].
    unfold id_is in Hid. intro Heq. rewrite Heq, Z.eqb_refl in Hid. discriminate.
Qed.

(** Witness of [delete_keeps_other_rows]: deleting row 3 of the sample
    table keeps row 1. *)
Lemma delete_keeps_other_rows_witness :
  get_weather_data_by_id 1
    (fst (delete_weather_data (t0 + 3 * hour) 3 (open_session sample_table)))
  = get_weather_data_by_id 1 (open_session sample_table).
Proof.
  apply (delete_keeps_other_rows (t0 + 3 * hour) 3 1 sample_table
           (reading 3 t0 "sensor_001" None (Some 70%float) None None None)).
  - reflexivity.
  - discriminate.
Defined.

(** X3. On an id that no row has, marking and deleting both answer 404
    "Dato no encontrado" and leave the session exactly as it was, pending
    work included: nothing is committed. *)
Theorem mark_and_delete_missing_id (now : datetime) (data_id : Z) (s : Session) :
  (forall r, In r (db_query s) -> WeatherStationData.id r <> data_id) ->
  mark_as_processed now data_id s
  = (s, Raise (HTTPException 404 "Dato no encontrado"))
  /\ delete_weather_data now data_id s
     = (s, Raise (HTTPException 404 "Dato no encontrado")).
Proof.
  intros Hnone.
  assert (E : first (filter (id_is data_id) (db_query s)) = None).
  { apply first_filter_none. intros x Hx. unfold id_is.
    apply Z.eqb_neq. now apply Hnone. }
  unfold mark_as_processed, delete_weather_data, bind, query_by_id, raise.
  now rewrite E.
Qed.

(** Witness of [mark_and_delete_missing_id]: id 9 on a session with a
    pending insert. *)
Lemma mark_and_delete_missing_id_witness :
  mark_as_processed t0 9 pending_session
  = (pending_session, Raise (HTTPException 404 "Dato no encontrado"))
  /\ delete_weather_data t0 9 pending_session
     = (pending_session, Raise (HTTPException 404 "Dato no encontrado")).
Proof.
  apply (mark_and_delete_missing_id t0 9 pending_session).
  intros r Hr. cbn in Hr.
  destruct Hr as [<-|[<-|[<-|[]]]]; discriminate.
Defined.

(* ================================================================== *)
(** * What marking changes, and what no handler breaks *)
(* ================================================================== *)

(** The table after marking a row that is found and not yet processed. *)
Lemma mark_unprocessed_table (now : datetime) (data_id : Z) (t : Table)
    (r : WeatherStationData.t) :
  first (filter (id_is data_id) (rows t)) = Some r ->
  WeatherStationData.processed r <> 1 ->
  mark_as_processed now data_id (open_session t)
  = (open_session
       (mkTable (update_row now (WeatherStationData.with_processed 1 r) (rows t))
                (next_id t)),
     Ok (mkAck true "Dato marcado como procesado" data_id)).
Proof.
  intros Hr Hp.
  unfold mark_as_processed, bind, query_by_id, db_query.
  cbn [table open_session]. rewrite Hr. unfold set_processed.
  destruct (WeatherStationData.processed r =? 1) eqn:E;
    [apply Z.eqb_eq in E; contradiction|].
  unfold db_commit, ret, update_all, open_session.
  cbn [new dirty deleted table forallb insert_all fold_left app].
  now rewrite delete_all_nil.
Qed.

(** An UPDATE of one id is invisible to the lookup by another id. *)
Lemma filter_other_update_row (now : datetime) (o : WeatherStationData.t)
    (other : Z) (rs : list WeatherStationData.t) :
  WeatherStationData.id o <> other ->
  filter (id_is other) (update_row now o rs) = filter (id_is other) rs.
Proof.
  intros Hne. unfold update_row, id_is.
  induction rs as [|x rs IH]; [reflexivity|].
  cbn [map filter]. rewrite IH.
  destruct (WeatherStationData.id x =? WeatherStationData.id o) eqn:E.
  - apply Z.eqb_eq in E.
    cbn [WeatherStationData.id WeatherStationData.with_updated_at].
    destruct (WeatherStationData.id o =? other) eqn:E1;
      [apply Z.eqb_eq in E1; contradiction|].
    rewrite E. now rewrite E1.
  - reflexivity.
Qed.

Lemma update_row_ids (now : datetime) (o : WeatherStationData.t)
    (rs : list WeatherStationData.t) :
  map WeatherStationData.id (update_row now o rs) = map WeatherStationData.id rs.
Proof. apply (update_all_ids now [o] rs). Qed.

(** X4. Marking a row that is found changes nothing but that row's flag
    and stamp: the row is afterwards found as it was, with [processed = 1]
    and, when the flag really changed, [updated_at] set to the time of the
    call (a row already processed is left untouched, stamp included);
    the lookup by any other id, the ids of the table and the id sequence
    are as before. *)
Theorem mark_changes_only_the_flag (now : datetime) (data_id : Z) (t : Table)
    (r : WeatherStationData.t) :
  first (filter (id_is data_id) (rows t)) = Some r ->
  exists s1,
    mark_as_processed now data_id (open_session t)
    = (s1, Ok (mkAck true "Dato marcado como procesado" data_id))
    /\ get_weather_data_by_id data_id s1
       = Ok (if WeatherStationData.processed r =? 1 then r
             else WeatherStationData.with_updated_at now
                    (WeatherStationData.with_processed 1 r))
    /\ (forall other, other <> data_id ->
          get_weather_data_by_id other s1
          = get_weather_data_by_id other (open_session t))
    /\ map WeatherStationData.id (db_query s1)
       = map WeatherStationData.id (rows t)
    /\ next_id (table s1) = next_id t.
Proof.
  intros Hr. destruct (first_filter_id _ _ _ Hr) as [Hid _].
  destruct (WeatherStationData.processed r =? 1) eqn:E.
  - apply Z.eqb_eq in E. exists (open_session t).
    split; [now apply (mark_processed_row now data_id t r)|].
    split; [unfold get_weather_data_by_id, db_query; simpl; now rewrite Hr|].
    repeat split.
  - apply Z.eqb_neq in E. eexists.
    split; [now apply (mark_unprocessed_table now data_id t r)|].
    split; [|split; [|split]].
    + unfold get_weather_data_by_id, db_query. cbn [table open_session rows].
      rewrite <- Hid.
      rewrite (first_update_row now (WeatherStationData.with_processed 1 r) r);
        [reflexivity|]. cbn [WeatherStationData.id WeatherStationData.with_processed].
      now rewrite Hid.
    + intros other Hne. unfold get_weather_data_by_id, db_query.
      cbn [table open_session rows].
      rewrite filter_other_update_row; [reflexivity|].
      cbn [WeatherStationData.id WeatherStationData.with_processed]. congruence.
    + unfold db_query. cbn [table open_session rows]. apply update_row_ids.
    + reflexivity.
Qed.

(** Witness of [mark_changes_only_the_flag]: row 1 of the sample table. *)
Lemma mark_changes_only_the_flag_witness :
  exists s1,
    mark_as_processed (t0 + 3 * hour) 1 (open_session sample_table)
    = (s1, Ok (mkAck true "Dato marcado como procesado" 1))
    /\ option_map WeatherStationData.updated_at
         (match get_weather_data_by_id 1 s1 with Ok x => Some x | Raise _ => None end)
       = Some (Some (t0 + 3 * hour)).
Proof.
  destruct (mark_changes_only_the_flag (t0 + 3 * hour) 1 sample_table
              (reading 1 (t0 + 2 * hour) "sensor_001" (Some 25.5%float)
                 (Some 60%float) None None None) eq_refl)
    as (s1 & Hm & Hg & _).
  exists s1. split; [exact Hm|]. rewrite Hg. reflexivity.
Defined.

(** X5. No handler that writes breaks the key of the table: whatever the
    session holds when the handler starts, if [id] is a key and every id
    is below the sequence before the call, it is so after it, whether the
    handler succeeds or raises. *)
Theorem writing_handlers_keep_key (now : datetime) (data_id : Z)
    (data : DataReceived.t) (s : Session) :
  key_ok (table s) ->
  key_ok (table (fst (mark_as_processed now data_id s)))
  /\ key_ok (table (fst (delete_weather_data now data_id s)))
  /\ key_ok (table (fst (receive_weather_data now data s))).
Proof.
  intros Hok. split; [|split].
  - unfold mark_as_processed, bind, query_by_id.
    destruct (first (filter (id_is data_id) (db_query s))) as [r|]; [|exact Hok].
    unfold set_processed.
    destruct (WeatherStationData.processed r =? 1).
    + destruct (db_commit now s) as [s' res] eqn:E.
      pose proof (db_commit_key_ok now s s' res Hok E). now destruct res.
    + match goal with
      | |- context [db_commit now ?s2] =>
          destruct (db_commit now s2) as [s' res] eqn:E;
          pose proof (db_commit_key_ok now s2 s' res Hok E)
      end.
      now destruct res.
  - unfold delete_weather_data, bind, query_by_id.
    destruct (first (filter (id_is data_id) (db_query s))) as [r|]; [|exact Hok].
    unfold db_delete.
    match goal with
    | |- context [db_commit now ?s2] =>
        destruct (db_commit now s2) as [s' res] eqn:E;
        pose proof (db_commit_key_ok now s2 s' res Hok E)
    end.
    now destruct res.
  - now rewrite receive_weather_data_raises.
Qed.

(** Witness of [writing_handlers_keep_key]: the sample table, with a
    pending insert. *)
Lemma writing_handlers_keep_key_witness :
  key_ok (table pending_session)
  /\ key_ok (table (fst (delete_weather_data t0 2 pending_session))).
Proof.
  assert (Hok : key_ok (table pending_session)).
  { split; cbn.
    - repeat constructor; cbn; intuition discriminate.
    - repeat constructor; cbn; lia. }
  split; [exact Hok|].
  apply (writing_handlers_keep_key t0 2 example_data pending_session Hok).
Defined.

(** X6. With [id] a key, every row served as the latest of its source is
    the row the lookup by its id returns. *)
Theorem latest_rows_found_by_id (db : Session) (l : WeatherStationData.t) :
  NoDup (map WeatherStationData.id (db_query db)) ->
  In l (get_latest_from_all_sources db) ->
  get_weather_data_by_id (WeatherStationData.id l) db = Ok l.
Proof.
  intros Hkey Hl. unfold get_latest_from_all_sources in Hl.
  rewrite (join_on_max_id_latest _ Hkey) in Hl.
  apply filter_In in Hl. destruct Hl as [Hl _].
  unfold get_weather_data_by_id. now rewrite (first_filter_key _ l Hkey Hl).
Qed.

(** Witness of [latest_rows_found_by_id]: row 3 of the sample table. *)
Lemma latest_rows_found_by_id_witness :
  get_weather_data_by_id 3 sample_db
  = Ok (reading 3 t0 "sensor_001" None (Some 70%float) None None None).
Proof.
  apply (latest_rows_found_by_id sample_db
           (reading 3 t0 "sensor_001" None (Some 70%float) None None None)).
  - cbn. repeat constructor; cbn; intuition discriminate.
  - vm_compute. right. left. reflexivity.
Defined.

(* ================================================================== *)
(** * Pagination, parameter bounds and the per-source listing *)
(* ================================================================== *)




(** X9. The listing rejects a request exactly when [skip] is negative or
    [limit] is outside 1..1000, naming the parameter; it raises nothing
    else, whatever the filters and the store. *)
Theorem list_rejects_exactly_out_of_range (skip limit : Z)
    (source : option string) (start_date end_date : option datetime)
    (db : Session) :
  ((skip < 0 \/ limit < 1 \/ 1000 < limit)
   <-> exists e, get_all_weather_data skip limit source start_date end_date db
                 = Raise e)
  /\ (forall e,
        get_all_weather_data skip limit source start_date end_date db = Raise e ->
        e = RequestValidationError (if skip <? 0 then "skip" else "limit")).
Proof.
  unfold get_all_weather_data, Query.
  destruct (skip <? 0) eqn:E1.
  { apply Z.ltb_lt in E1. split.
    - split; [eexists; reflexivity|auto].
    - intros e H. now inversion H. }
  apply Z.ltb_ge in E1.
  destruct (limit <? 1) eqn:E2.
  { apply Z.ltb_lt in E2. split.
    - split; [eexists; reflexivity|auto].
    - intros e H. now inversion H. }
  apply Z.ltb_ge in E2.
  destruct (1000 <? limit) eqn:E3.
  { apply Z.ltb_lt in E3. split.
    - split; [eexists; reflexivity|auto].
    - intros e H. now inversion H. }
  apply Z.ltb_ge in E3. split.
  - split; [lia|]. intros [e H]. discriminate.
  - discriminate.
Qed.

(** The per-source listing, for a limit in range. *)
Lemma get_data_by_source_eq (source_name : string) (limit : Z) (db : Session) :
  1 <= limit <= 500 ->
  get_data_by_source source_name limit db
  = match limit_ limit (order_by_station_time_desc
                          (filter (source_is source_name) (db_query db))) with
    | [] => Raise (HTTPException 404
                     ("No se encontraron datos para la fuente '" ++ source_name ++ "'"))
    | x :: data => Ok (x :: data)
    end.
Proof.
  intros Hl. unfold get_data_by_source.
  rewrite (Query_in_range "limit" 1 500 limit Hl). cbv zeta.
  now destruct (limit_ limit _).
Qed.

Lemma limit_nil_iff {A : Type} (limit : Z) (q : list A) :
  1 <= limit -> (limit_ limit q = [] <-> q = []).
Proof.
  intros Hl. unfold limit_.
  destruct (Z.to_nat limit) as [|n] eqn:E; [lia|].
  destruct q; simpl; split; congruence.
Qed.

(** X10. For a limit in 1..500 the per-source listing answers 404 exactly
    when the store has no row of that source; otherwise it answers a
    non-empty list of rows of the store, all of that source, in
    descending [station_time] order, at most [limit] of them, starting
    with a row of the greatest [station_time] of the source. *)
Theorem get_data_by_source_newest_first (source_name : string) (limit : Z)
    (db : Session) :
  1 <= limit <= 500 ->
  ((forall r, In r (db_query db) -> WeatherStationData.source r <> source_name)
   <-> get_data_by_source source_name limit db
       = Raise (HTTPException 404
                  ("No se encontraron datos para la fuente '" ++ source_name ++ "'")))
  /\ (forall data,
        get_data_by_source source_name limit db = Ok data ->
        (exists x rest,
           data = x :: rest
           /\ forall r, In r (db_query db) ->
                WeatherStationData.source r = source_name ->
                WeatherStationData.station_time r
                <= WeatherStationData.station_time x)
        /\ (forall r, In r data ->
              In r (db_query db) /\ WeatherStationData.source r = source_name)
        /\ desc_by_station_time data
        /\ Z.of_nat (List.length data) <= limit).
Proof.
  intros Hl. rewrite (get_data_by_source_eq source_name limit db Hl).
  set (kept := filter (source_is source_name) (db_query db)).
  set (full := order_by_station_time_desc kept).
  assert (Hfull : forall r, In r full <->
            In r (db_query db) /\ WeatherStationData.source r = source_name).
  { intro r. unfold full, order_by_station_time_desc.
    rewrite sort_by_in. unfold kept. rewrite filter_In.
    now rewrite source_is_true. }
  assert (Hsorted : desc_by_station_time full) by apply order_by_desc_sorted.
  split.
  - destruct (limit_ limit full) as [|x data] eqn:E.
    + split; [reflexivity|]. intros _ r Hr Hs.
      apply limit_nil_iff in E; [|lia].
      assert (Hin : In r full) by (apply Hfull; auto).
      rewrite E in Hin. exact Hin.
    + split; [|discriminate]. intros Hnone. exfalso.
      assert (Hx : In x full).
      { unfold limit_ in E. rewrite <- (firstn_skipn (Z.to_nat limit) full).
        apply in_or_app. left. rewrite E. now left. }
      apply Hfull in Hx. destruct Hx as [Hx Hs]. exact (Hnone x Hx Hs).
  - intros data H.
    destruct (limit_ limit full) as [|x rest] eqn:E; [discriminate|].
    inversion H; subst data; clear H.
    assert (Hsub : forall r, In r (x :: rest) -> In r full).
    { intros r Hr. unfold limit_ in E.
      rewrite <- (firstn_skipn (Z.to_nat limit) full).
      apply in_or_app. left. now rewrite E. }
    split; [|split; [|split]].
    + exists x, rest. split; [reflexivity|]. intros r Hr Hs.
      assert (Hin : In r full) by (apply Hfull; auto).
      unfold limit_ in E. destruct (Z.to_nat limit) as [|n] eqn:En; [lia|].
      destruct full as [|y full']; [discriminate|].
      simpl in E. inversion E; subst y.
      unfold desc_by_station_time in Hsorted.
      inversion Hsorted as [|? ? _ Hall]; subst.
      destruct Hin as [<-|Hin]; [lia|].
      rewrite Forall_forall in Hall. now apply Hall.
    + intros r Hr. apply Hfull. now apply Hsub.
    + rewrite <- E. unfold limit_. now apply StronglySorted_firstn.
    + rewrite <- E. unfold limit_.
      pose proof (firstn_le_length (Z.to_nat limit) full). lia.
Qed.

(** Witness of [get_data_by_source_newest_first]: the rows of
    [sensor_001] in the sample table, row 1 first. *)
Lemma get_data_by_source_newest_first_witness :
  1 <= 50 <= 500
  /\ forall data,
       get_data_by_source "sensor_001" 50 sample_db = Ok data ->
       desc_by_station_time data.
Proof.
  split; [lia|]. intros data H.
  destruct (get_data_by_source_newest_first "sensor_001" 50 sample_db) as [_ Hok];
    [lia|].
  now destruct (Hok data H) as (_ & _ & Hdesc & _).
Defined.



(* ================================================================== *)
(** * The list of sources *)
(* ================================================================== *)

(** The byte order of strings is transitive. *)
Lemma string_leb_trans (a b c : string) :
  String.leb a b = true -> String.leb b c = true -> String.leb a c = true.
Proof.
  unfold String.leb. revert b c.
  induction a as [|x a IH]; intros [|y b] [|z c]; simpl; try congruence.
  unfold Ascii.compare.
  destruct (N.compare_spec (Ascii.N_of_ascii x) (Ascii.N_of_ascii y)) as [Exy|Lxy|Gxy];
    destruct (N.compare_spec (Ascii.N_of_ascii y) (Ascii.N_of_ascii z)) as [Eyz|Lyz|Gyz];
    destruct (N.compare_spec (Ascii.N_of_ascii x) (Ascii.N_of_ascii z)) as [Exz|Lxz|Gxz];
    try congruence; try lia; try reflexivity.
  apply IH.
Qed.

Lemma string_leb_total (a b : string) :
  String.leb a b = false -> String.leb b a = true.
Proof.
  intro H. destruct (String.leb_total a b) as [H1|H1]; congruence.
Qed.

(** X12. Whatever the collation, provided it is a total and transitive
    order, the list of sources holds every source of the store exactly
    once and nothing else, is sorted by the collation, and [total] is its
    length. *)
Theorem list_all_sources_distinct_sorted
    (collation : string -> string -> bool) (db : Session) :
  (forall a b, collation a b = false -> collation b a = true) ->
  (forall a b c, collation a b = true -> collation b c = true ->
                 collation a c = true) ->
  NoDup (sources_list (list_all_sources collation db))
  /\ (forall s, In s (sources_list (list_all_sources collation db))
                <-> exists r, In r (db_query db)
                              /\ WeatherStationData.source r = s)
  /\ StronglySorted (fun a b => collation a b = true)
       (sources_list (list_all_sources collation db))
  /\ sources_total (list_all_sources collation db)
     = Z.of_nat (List.length (sources_list (list_all_sources collation db))).
Proof.
  intros Htotal Htrans. unfold list_all_sources. cbn [sources_list sources_total].
  split; [|split; [|split]].
  - eapply Permutation_NoDup; [apply sort_by_perm|apply group_by_source_NoDup].
  - intro s. rewrite sort_by_in. apply group_by_source_in.
  - now apply sort_by_sorted.
  - reflexivity.
Qed.

(** Witness of [list_all_sources_distinct_sorted]: the byte order on the
    sample table. *)
Lemma list_all_sources_distinct_sorted_witness :
  list_all_sources String.leb sample_db
  = mkSourcesReport 2 ["sensor_001"; "sensor_002"]
  /\ NoDup (sources_list (list_all_sources String.leb sample_db)).
Proof.
  split; [vm_compute; reflexivity|].
  apply (list_all_sources_distinct_sorted String.leb sample_db
           string_leb_total string_leb_trans).
Defined.

(** With [id] a key there are as many latest rows as distinct sources. *)
Lemma latest_length (rs : list WeatherStationData.t) :
  NoDup (map WeatherStationData.id rs) ->
  List.length (filter (is_latest rs) rs) = List.length (group_by_source rs).
Proof.
  intros Hkey. rewrite <- (length_map WeatherStationData.source).
  apply Permutation_length, NoDup_Permutation.
  - now apply latest_sources_NoDup.
  - apply group_by_source_NoDup.
  - intro s. rewrite group_by_source_in, in_map_iff. split.
    + intros (l & Hs & Hl). apply filter_In in Hl. exists l. tauto.
    + intros (r & Hr & Hs). destruct (latest_exists rs r Hr) as (l & Hl & Hsl).
      exists l. split; [congruence|exact Hl].
Qed.

(** X13. With [id] a key, the [total] of the list of sources is the
    number of rows the latest-per-source view returns, whatever the
    collation: the two endpoints agree on how many stations there are. *)
Theorem sources_total_is_latest_count
    (collation : string -> string -> bool) (db : Session) :
  NoDup (map WeatherStationData.id (db_query db)) ->
  sources_total (list_all_sources collation db)
  = Z.of_nat (List.length (get_latest_from_all_sources db)).
Proof.
  intros Hkey. unfold list_all_sources, get_latest_from_all_sources.
  cbn [sources_total]. rewrite (join_on_max_id_latest _ Hkey).
  now rewrite sort_by_length, (latest_length _ Hkey).
Qed.

(** Witness of [sources_total_is_latest_count]: two stations in the
    sample table. *)
Lemma sources_total_is_latest_count_witness :
  sources_total (list_all_sources String.leb sample_db)
  = Z.of_nat (List.length (get_latest_from_all_sources sample_db)).
Proof.
  apply (sources_total_is_latest_count String.leb sample_db).
  cbn. repeat constructor; cbn; intuition discriminate.
Defined.

(* ================================================================== *)
(** * Statistics and the rain estimate over one window *)
(* ================================================================== *)

Lemma round2_if_some (v : option float) (x : float) :
  round2_if v = Some x ->
  exists a, v = Some a /\ x = round2 a /\ float_bool a = true.
Proof.
  unfold round2_if, optional_float_bool. destruct v as [a|]; [|discriminate].
  destruct (float_bool a) eqn:E; [|discriminate].
  simpl. intro H. inversion H. now exists a.
Qed.

Lemma non_null_in {A B : Type} (col : A -> option B) (rs : list A) (v : B) :
  In v (non_null col rs) -> exists r, In r rs /\ col r = Some v.
Proof.
  induction rs as [|r rs IH]; simpl; [intros []|].
  destruct (col r) as [w|] eqn:E.
  - intros [<-|Hv].
    + exists r. auto.
    + destruct (IH Hv) as (r' & Hr' & Hc). exists r'. auto.
  - intro Hv. destruct (IH Hv) as (r' & Hr' & Hc). exists r'. auto.
Qed.

(** A reported aggregate comes from at least one row that has the
    column. *)
Lemma reported_aggregate_has_row {A : Type} (agg : list float -> option float)
    (col : A -> option float) (rs : list A) (x : float) :
  agg [] = None ->
  round2_if (agg (non_null col rs)) = Some x ->
  exists r v, In r rs /\ col r = Some v.
Proof.
  intros Hnil H. apply round2_if_some in H. destruct H as (a & Ha & _).
  destruct (non_null col rs) as [|v vs] eqn:E; [congruence|].
  destruct (non_null_in col rs v) as (r & Hr & Hc); [rewrite E; now left|].
  now exists r, v.
Qed.

(** X14. A statistics report counts every row of the source inside the
    window, whatever fields it has, and that count is positive; an
    aggregate it shows is never made up: a reported value comes with a
    row of the window that has the field, and a reported average is the
    rounded sum of the present values divided by their number. *)
Theorem statistics_report_only_present_fields (now : datetime)
    (source_name : string) (hours : Z) (db : Session) (report : StatsReport) :
  get_statistics_by_source now source_name hours db = Ok report ->
  stats_total_records report
  = Z.of_nat (List.length
      (filter (in_window source_name (now - timedelta_hours hours)) (db_query db)))
  /\ 0 < stats_total_records report
  /\ (forall x, temperature_average report = Some x ->
        x = round2
              (PrimFloat.div
                 (py_sum (non_null WeatherStationData.temperature
                    (filter (in_window source_name (now - timedelta_hours hours))
                       (db_query db))))
                 (float_of_len (non_null WeatherStationData.temperature
                    (filter (in_window source_name (now - timedelta_hours hours))
                       (db_query db))))))
  /\ ((temperature_average report <> None \/ temperature_maximum report <> None
       \/ temperature_minimum report <> None) ->
      exists r v,
        In r (filter (in_window source_name (now - timedelta_hours hours))
                (db_query db))
        /\ WeatherStationData.temperature r = Some v)
  /\ (humidity_average report <> None ->
      exists r v,
        In r (filter (in_window source_name (now - timedelta_hours hours))
                (db_query db))
        /\ WeatherStationData.humidity r = Some v)
  /\ ((wind_speed_average report <> None \/ wind_speed_maximum report <> None) ->
      exists r v,
        In r (filter (in_window source_name (now - timedelta_hours hours))
                (db_query db))
        /\ WeatherStationData.wind_speed r = Some v).
Proof.
  intro H.
  assert (Hh : 1 <= hours <= 720).
  { unfold get_statistics_by_source in H.
    destruct (Query "hours" 1 (Some 720) hours) eqn:Q; [|discriminate].
    now apply Query_ok_in_range in Q. }
  unfold get_statistics_by_source in H.
  rewrite (Query_in_range "hours" 1 720 hours Hh) in H. cbv zeta in H.
  unfold stats_query in H.
  cbn [total_records avg_temp max_temp min_temp avg_humidity avg_wind_speed
       max_wind_speed] in H.
  set (q := filter (in_window source_name (now - timedelta_hours hours))
              (db_query db)) in *.
  destruct (sql_count q =? 0) eqn:E; [discriminate|].
  apply Z.eqb_neq in E. inversion H; subst report; clear H.
  cbn [stats_total_records temperature_average temperature_maximum
       temperature_minimum humidity_average wind_speed_average
       wind_speed_maximum].
  assert (Hsome : forall o : option float, o <> None -> exists x, o = Some x).
  { intros [x|] Ho; [now exists x|congruence]. }
  unfold sql_count in *.
  split; [reflexivity|]. split; [lia|]. split; [|split; [|split]].
  - intros x Hx. apply round2_if_some in Hx. destruct Hx as (a & Ha & -> & _).
    apply sql_avg_some in Ha. destruct Ha as [-> _]. reflexivity.
  - intros [Ho|[Ho|Ho]]; apply Hsome in Ho; destruct Ho as [x Hx].
    + now apply (reported_aggregate_has_row sql_avg _ _ x).
    + now apply (reported_aggregate_has_row sql_max _ _ x).
    + now apply (reported_aggregate_has_row sql_min _ _ x).
  - intros Ho. apply Hsome in Ho. destruct Ho as [x Hx].
    now apply (reported_aggregate_has_row sql_avg _ _ x).
  - intros [Ho|Ho]; apply Hsome in Ho; destruct Ho as [x Hx].
    + now apply (reported_aggregate_has_row sql_avg _ _ x).
    + now apply (reported_aggregate_has_row sql_max _ _ x).
Qed.

(** Witness of [statistics_report_only_present_fields]: [sensor_001] in
    the sample table, where one of two rows has a temperature. *)
Lemma statistics_report_only_present_fields_witness :
  get_statistics_by_source (t0 + 3 * hour) "sensor_001" 24 sample_db
  = Ok (mkStatsReport "sensor_001" 24 (Some 25.5%float) (Some 25.5%float)
          (Some 25.5%float) (Some 65%float) None None 2)
  /\ 0 < stats_total_records
           (mkStatsReport "sensor_001" 24 (Some 25.5%float) (Some 25.5%float)
              (Some 25.5%float) (Some 65%float) None None 2).
Proof.
  split; [vm_compute; reflexivity|].
  apply (statistics_report_only_present_fields (t0 + 3 * hour) "sensor_001" 24
           sample_db).
  vm_compute. reflexivity.
Defined.

(** X15. Whenever the rain estimate is available for a source and a
    window, the statistics of the same source, window and instant are
    available too and count the same records, at least two. *)
Theorem rain_found_implies_statistics_found (now : datetime)
    (source_name : string) (hours : Z) (db : Session) (rain : RainReport) :
  get_rain_probability now source_name hours db = Ok rain ->
  2 <= records_analyzed rain
  /\ exists stats,
       get_statistics_by_source now source_name hours db = Ok stats
       /\ stats_total_records stats = records_analyzed rain.
Proof.
  intro H.
  assert (Hh : 1 <= hours <= 48).
  { unfold get_rain_probability in H.
    destruct (Query "hours" 1 (Some 48) hours) eqn:Q; [|discriminate].
    now apply Query_ok_in_range in Q. }
  destruct (le_lt_dec 2 (List.length
              (recent_data_query source_name (now - timedelta_hours hours) db)))
    as [Hlen|Hlen].
  2: { rewrite (get_rain_probability_not_found now source_name hours db Hh Hlen) in H.
       discriminate. }
  rewrite (get_rain_probability_report now source_name hours db Hh Hlen) in H.
  inversion H; subst rain; clear H. cbv zeta. cbn [records_analyzed].
  unfold recent_data_query, order_by_station_time_asc in *.
  rewrite sort_by_length in *.
  split; [lia|].
  unfold get_statistics_by_source.
  rewrite (Query_in_range "hours" 1 720 hours) by lia. cbv zeta.
  unfold stats_query, sql_count. cbn [total_records].
  destruct (Z.of_nat (List.length
              (filter (in_window source_name (now - timedelta_hours hours))
                 (db_query db))) =? 0) eqn:E; [apply Z.eqb_eq in E; lia|].
  eexists. split; reflexivity.
Qed.

(** Witness of [rain_found_implies_statistics_found]: the two readings. *)
Lemma rain_found_implies_statistics_found_witness :
  exists stats,
    get_statistics_by_source (t0 + 2 * hour) "sensor_001" 6
      (open_session two_readings_table) = Ok stats
    /\ stats_total_records stats = 2.
Proof.
  apply (rain_found_implies_statistics_found (t0 + 2 * hour) "sensor_001" 6
           (open_session two_readings_table)
           (mkRainReport "sensor_001" 6 90 2 95%float (-2)%float 0.2%float)).
  vm_compute. reflexivity.
Defined.

(** X16. The window of the statistics is 1..720 hours and that of the
    rain estimate 1..48 hours, and the per-source listing takes 1..500
    rows: each handler rejects its parameter exactly outside that range,
    before it reads the store. *)
Theorem windows_and_limits_are_bounded (now : datetime) (source_name : string)
    (n : Z) (db : Session) :
  ((n < 1 \/ 720 < n)
   <-> get_statistics_by_source now source_name n db
       = Raise (RequestValidationError "hours"))
  /\ ((n < 1 \/ 48 < n)
      <-> get_rain_probability now source_name n db
          = Raise (RequestValidationError "hours"))
  /\ ((n < 1 \/ 500 < n)
      <-> get_data_by_source source_name n db
          = Raise (RequestValidationError "limit")).
Proof.
  split; [|split]; split.
  - intros Hn. unfold get_statistics_by_source, Query.
    destruct (n <? 1) eqn:E1; [reflexivity|]. apply Z.ltb_ge in E1.
    destruct (720 <? n) eqn:E2; [reflexivity|]. apply Z.ltb_ge in E2. lia.
  - intro H. destruct (Z_lt_dec n 1) as [|H1]; [now left|].
    destruct (Z_lt_dec 720 n) as [|H2]; [now right|]. exfalso.
    unfold get_statistics_by_source in H.
    rewrite (Query_in_range "hours" 1 720 n) in H by lia. cbv zeta in H.
    destruct (total_records _ =? 0); discriminate.
  - intros Hn. unfold get_rain_probability, Query.
    destruct (n <? 1) eqn:E1; [reflexivity|]. apply Z.ltb_ge in E1.
    destruct (48 <? n) eqn:E2; [reflexivity|]. apply Z.ltb_ge in E2. lia.
  - intro H. destruct (Z_lt_dec n 1) as [|H1]; [now left|].
    destruct (Z_lt_dec 48 n) as [|H2]; [now right|]. exfalso.
    assert (Hh : 1 <= n <= 48) by lia.
    destruct (le_lt_dec 2 (List.length
                (recent_data_query source_name (now - timedelta_hours n) db)))
      as [Hlen|Hlen].
    + rewrite (get_rain_probability_report now source_name n db Hh Hlen) in H.
      discriminate.
    + rewrite (get_rain_probability_not_found now source_name n db Hh Hlen) in H.
      discriminate.
  - intros Hn. unfold get_data_by_source, Query.
    destruct (n <? 1) eqn:E1; [reflexivity|]. apply Z.ltb_ge in E1.
    destruct (500 <? n) eqn:E2; [reflexivity|]. apply Z.ltb_ge in E2. lia.
  - intro H. destruct (Z_lt_dec n 1) as [|H1]; [now left|].
    destruct (Z_lt_dec 500 n) as [|H2]; [now right|]. exfalso.
    rewrite (get_data_by_source_eq source_name n db) in H by lia.
    destruct (limit_ n _); discriminate.
Qed.

(* ================================================================== *)
(** * Marking does not disturb the derived views *)
(* ================================================================== *)

Section MapSame.

Context {A : Type} (f : A -> A).






End MapSame.










